(** * PhishDetect: lexical URL features, training scripts and the predictor

    A shallow embedding of
      - [feature_extraction.py]   ([extract_features]),
      - [model.py] and [.ipynb_checkpoints/model-checkpoint.py] (the two
        training scripts),
      - [app.py]                  ([predict_URL]),
    together with the parts of the Python standard library the feature
    extractor calls ([str] methods, [re.search] / [re.findall] on the
    patterns used, [urllib.parse.urlparse]).

    Conventions.
      - A Python [str] is a Rocq [string]; one [ascii] stands for one code
        point below 256, and the character classes ([str.isdigit], [\d], [\w],
        [str.isspace]) are Python's on that range.
      - A Python [int] is a [Z].
      - A raised exception is the left injection of a sum; [x <- e ;; k]
        propagates it.
      - Class probabilities are exact rationals ([Q]).
      - The memo table that [functools.lru_cache] keeps for [urlsplit] is
        threaded explicitly where repeated calls are compared
        ([extract_features_cached]); on a table filled by [urlsplit] the
        cached call returns what [extract_features] returns. *)

From Stdlib Require Import Bool Arith ZArith NArith List Ascii String Lia.
From Stdlib Require Import QArith Qminmax Lqa.
Import ListNotations.

Local Open Scope string_scope.
Local Open Scope bool_scope.

(** ** Exceptions *)

Inductive exn : Type :=
| ValueError (msg : string)
| KeyError (key : string)
| IndexError (msg : string)
| FileNotFoundError (path : string).

Definition result (A : Type) : Type := (exn + A)%type.

Definition ret {A : Type} (a : A) : result A := inr a.
Definition raise {A : Type} (e : exn) : result A := inl e.

Definition bind {A B : Type} (m : result A) (k : A -> result B) : result B :=
  match m with
  | inl e => inl e
  | inr a => k a
  end.

Notation "x <- m ;; k" := (bind m (fun x => k))
  (at level 61, m at next level, right associativity).
Notation "' p <- m ;; k" := (bind m (fun x => let p := x in k))
  (at level 61, p pattern, m at next level, right associativity).
Notation "m ;;; k" := (bind m (fun _ => k))
  (at level 61, right associativity).

(** ** Python [str] *)

Module PyStr.

Definition code (c : ascii) : N := N_of_ascii c.

Definition between (lo hi : N) (c : ascii) : bool :=
  (lo <=? code c)%N && (code c <=? hi)%N.

(** [c.isascii()] *)
Definition isascii (c : ascii) : bool := (code c <? 128)%N.

(** [c.isascii() and c.isalpha()] *)
Definition is_ascii_alpha (c : ascii) : bool :=
  between 65 90 c || between 97 122 c.

(** [c.isdigit()]: the decimal digits and the superscripts one, two, three. *)
Definition isdigit (c : ascii) : bool :=
  between 48 57 c || between 178 179 c || between 185 185 c.

(** [c.isspace()] *)
Definition isspace (c : ascii) : bool :=
  between 9 13 c || between 28 32 c || between 133 133 c
  || between 160 160 c.

(** [c.lower()] on the scheme alphabet (only ASCII letters change). *)
Definition lower_char (c : ascii) : ascii :=
  if between 65 90 c then ascii_of_N (code c + 32) else c.

Fixpoint lower (s : string) : string :=
  match s with
  | EmptyString => EmptyString
  | String c s' => String (lower_char c) (lower s')
  end.

Fixpoint forallb (f : ascii -> bool) (s : string) : bool :=
  match s with
  | EmptyString => true
  | String c s' => f c && forallb f s'
  end.

Fixpoint existsb (f : ascii -> bool) (s : string) : bool :=
  match s with
  | EmptyString => false
  | String c s' => f c || existsb f s'
  end.

Definition is_empty (s : string) : bool :=
  match s with
  | EmptyString => true
  | String _ _ => false
  end.

(** [len(s)] *)
Definition len (s : string) : Z := Z.of_nat (String.length s).

(** [sum(f(c) for c in s)] for a boolean [f] *)
Fixpoint count_if (f : ascii -> bool) (s : string) : Z :=
  match s with
  | EmptyString => 0
  | String c s' => ((if f c then 1 else 0) + count_if f s')%Z
  end.

(** [s.count(c)] for a one-character [c] *)
Definition count (c : ascii) (s : string) : Z := count_if (Ascii.eqb c) s.

(** [c in s] for a one-character [c] *)
Definition has_char (c : ascii) (s : string) : bool :=
  existsb (Ascii.eqb c) s.

(** [s.startswith(p)] *)
Definition startswith (p s : string) : bool := String.prefix p s.

(** [sub in s] *)
Fixpoint contains (sub s : string) : bool :=
  startswith sub s
  || match s with
     | EmptyString => false
     | String _ s' => contains sub s'
     end.

Fixpoint rev_onto (s acc : string) : string :=
  match s with
  | EmptyString => acc
  | String c s' => rev_onto s' (String c acc)
  end.

Definition rev (s : string) : string := rev_onto s EmptyString.

(** [s.endswith(p)] *)
Definition endswith (p s : string) : bool := startswith (rev p) (rev s).

(** [s.endswith((p1, ..., pn))] *)
Definition endswith_any (ps : list string) (s : string) : bool :=
  List.existsb (fun p => endswith p s) ps.

(** [s[:n]] and [s[n:]] for [0 <= n] *)
Fixpoint take (n : nat) (s : string) : string :=
  match n, s with
  | S n', String c s' => String c (take n' s')
  | _, _ => EmptyString
  end.

Fixpoint drop (n : nat) (s : string) : string :=
  match n, s with
  | S n', String _ s' => drop n' s'
  | _, _ => s
  end.

(** [s.find(c)]: [None] stands for [-1]. *)
Fixpoint find (c : ascii) (s : string) : option nat :=
  match s with
  | EmptyString => None
  | String a s' =>
      if Ascii.eqb a c then Some O
      else match find c s' with
           | Some i => Some (S i)
           | None => None
           end
  end.

(** [s.find(c, start)] for [0 <= start] *)
Definition find_from (c : ascii) (start : nat) (s : string) : option nat :=
  if (String.length s <? start)%nat then None
  else match find c (drop start s) with
       | Some i => Some (start + i)%nat
       | None => None
       end.

(** [s.rfind(c)] *)
Fixpoint rfind (c : ascii) (s : string) : option nat :=
  match s with
  | EmptyString => None
  | String a s' =>
      match rfind c s' with
      | Some i => Some (S i)
      | None => if Ascii.eqb a c then Some O else None
      end
  end.

(** [s.lstrip(chars)], [chars] given as a predicate *)
Fixpoint lstrip (f : ascii -> bool) (s : string) : string :=
  match s with
  | EmptyString => EmptyString
  | String c s' => if f c then lstrip f s' else s
  end.

(** [s.rstrip(chars)] *)
Fixpoint rstrip (f : ascii -> bool) (s : string) : string :=
  match s with
  | EmptyString => EmptyString
  | String c s' =>
      let r := rstrip f s' in
      if is_empty r && f c then EmptyString else String c r
  end.

(** [s.strip()] *)
Definition strip (s : string) : string := rstrip isspace (lstrip isspace s).

(** [s.replace(c, "")] for a one-character [c] *)
Fixpoint remove (c : ascii) (s : string) : string :=
  match s with
  | EmptyString => EmptyString
  | String a s' => if Ascii.eqb a c then remove c s' else String a (remove c s')
  end.

(** [s.partition(c)]: [(before, found, after)]; when [c] is absent the
    result is [(s, False, "")]. *)
Definition partition (c : ascii) (s : string) : string * bool * string :=
  match find c s with
  | Some i => (take i s, true, drop (S i) s)
  | None => (s, false, EmptyString)
  end.

(** [s.rpartition(c)]: when [c] is absent the result is [("", False, s)]. *)
Definition rpartition (c : ascii) (s : string) : string * bool * string :=
  match rfind c s with
  | Some i => (take i s, true, drop (S i) s)
  | None => (EmptyString, false, s)
  end.

End PyStr.

(** ** Python [re], for the patterns of [feature_extraction.py]

    The patterns are built from literals, character classes, alternation,
    sequencing, the bounded repetition [{1,3}] and the word boundary [\b].
    [exec] is the backtracking matcher: alternatives are tried left to right
    and the continuation [k] receives the character before the current
    position (needed by [\b]) and the remaining input. *)

Module Re.

Inductive regex : Type :=
| Eps
| Cls (f : ascii -> bool)
| Seq (r1 r2 : regex)
| Alt (r1 r2 : regex)
| WordBoundary.

(** [\w] *)
Definition is_word (c : ascii) : bool :=
  PyStr.between 48 57 c || PyStr.between 65 90 c || PyStr.between 95 95 c
  || PyStr.between 97 122 c || PyStr.between 170 170 c
  || PyStr.between 178 179 c || PyStr.between 181 181 c
  || PyStr.between 185 186 c || PyStr.between 188 190 c
  || PyStr.between 192 214 c || PyStr.between 216 246 c
  || PyStr.between 248 255 c.

(** [\d] *)
Definition is_decimal (c : ascii) : bool := PyStr.between 48 57 c.

Definition Chr (c : ascii) : regex := Cls (Ascii.eqb c).

(** A literal word. *)
Fixpoint lit (w : string) : regex :=
  match w with
  | EmptyString => Eps
  | String c w' => Seq (Chr c) (lit w')
  end.

(** [r?] (greedy) and [r{1,3}] *)
Definition opt (r : regex) : regex := Alt r Eps.
Definition rep_1_3 (r : regex) : regex := Seq r (opt (Seq r (opt r))).

Definition head (s : string) : option ascii :=
  match s with
  | EmptyString => None
  | String c _ => Some c
  end.

Definition word_at (o : option ascii) : bool :=
  match o with
  | Some c => is_word c
  | None => false
  end.

Fixpoint exec {A : Type} (r : regex) (prev : option ascii) (s : string)
    (k : option ascii -> string -> option A) : option A :=
  match r with
  | Eps => k prev s
  | Cls f =>
      match s with
      | String c s' => if f c then k (Some c) s' else None
      | EmptyString => None
      end
  | Seq r1 r2 => exec r1 prev s (fun p s' => exec r2 p s' k)
  | Alt r1 r2 =>
      match exec r1 prev s k with
      | Some a => Some a
      | None => exec r2 prev s k
      end
  | WordBoundary =>
      if xorb (word_at prev) (word_at (head s)) then k prev s else None
  end.

(** A match anchored at the current position: the last character consumed
    and the input left after the match. *)
Definition match_at (r : regex) (prev : option ascii) (s : string)
  : option (option ascii * string) :=
  exec r prev s (fun p rest => Some (p, rest)).

Fixpoint search_from (r : regex) (prev : option ascii) (s : string)
  : option (option ascii * string) :=
  match match_at r prev s with
  | Some m => Some m
  | None =>
      match s with
      | EmptyString => None
      | String c s' => search_from r (Some c) s'
      end
  end.

(** [re.search(r, s)]: [None], or the first match. *)
Definition search (r : regex) (s : string) : option (option ascii * string) :=
  search_from r None s.

(** Truth value of [re.search(...)] in a conditional expression. *)
Definition truthy {A : Type} (o : option A) : bool :=
  match o with
  | Some _ => true
  | None => false
  end.

(** [re.findall(r, s)] for a pattern that consumes at least one character
    at every match (a match that consumes nothing is skipped). *)
Fixpoint findall_from (fuel : nat) (r : regex) (prev : option ascii)
    (s : string) : list string :=
  match fuel with
  | O => []
  | S fuel' =>
      let advance :=
        match s with
        | EmptyString => []
        | String c s' => findall_from fuel' r (Some c) s'
        end in
      match match_at r prev s with
      | Some (p, rest) =>
          match (String.length s - String.length rest)%nat with
          | O => advance
          | S n => PyStr.take (S n) s :: findall_from fuel' r p rest
          end
      | None => advance
      end
  end.

Definition findall (r : regex) (s : string) : list string :=
  findall_from (S (String.length s)) r None s.

(** [r'\W'] *)
Definition pat_nonword : regex := Cls (fun c => negb (is_word c)).

(** [r'http://|https://'] *)
Definition pat_http : regex := Alt (lit "http://") (lit "https://").

(** [r'http:\/|https:\/'] *)
Definition pat_malformed : regex := Alt (lit "http:/") (lit "https:/").

(** [r'\b\d{1,3}\.\d{1,3}\.\d{1,3}\.\d{1,3}\b'] *)
Definition pat_ip : regex :=
  let d := rep_1_3 (Cls is_decimal) in
  let dot := Chr "."%char in
  Seq WordBoundary
    (Seq d (Seq dot (Seq d (Seq dot (Seq d (Seq dot (Seq d WordBoundary))))))).

(** [r'bit\.ly|goo\.gl|t\.co|tinyurl\.com'] *)
Definition pat_shortener : regex :=
  Alt (lit "bit.ly") (Alt (lit "goo.gl") (Alt (lit "t.co") (lit "tinyurl.com"))).

End Re.

(** ** [urllib.parse] *)

Module UrlParse.

Record SplitResult : Type := mkSplit {
  s_scheme : string;
  s_netloc : string;
  s_path : string;
  s_query : string;
  s_fragment : string
}.

Record ParseResult : Type := mkParse {
  scheme : string;
  netloc : string;
  path : string;
  params : string;
  query : string;
  fragment : string
}.

(** [uses_params] *)
Definition uses_params : list string :=
  [""; "ftp"; "hdl"; "prospero"; "http"; "imap"; "https"; "shttp"; "rtsp";
   "rtspu"; "sip"; "sips"; "mms"; "sftp"; "tel"].

(** [c in scheme_chars]: ASCII letters, digits and [+-.] *)
Definition is_scheme_char (c : ascii) : bool :=
  PyStr.is_ascii_alpha c || PyStr.between 48 57 c
  || Ascii.eqb c "+" || Ascii.eqb c "-" || Ascii.eqb c ".".

(** [c in _WHATWG_C0_CONTROL_OR_SPACE] *)
Definition is_c0_control_or_space (c : ascii) : bool := PyStr.between 0 32 c.

(** [_UNSAFE_URL_BYTES_TO_REMOVE]: tab, carriage return, line feed *)
Definition TAB : ascii := ascii_of_N 9.
Definition LF : ascii := ascii_of_N 10.
Definition CR : ascii := ascii_of_N 13.

Definition remove_unsafe (url : string) : string :=
  PyStr.remove LF (PyStr.remove CR (PyStr.remove TAB url)).

Definition in_list (s : string) (l : list string) : bool :=
  List.existsb (String.eqb s) l.

(** [_splitparams] *)
Definition _splitparams (url : string) : string * string :=
  if PyStr.has_char "/" url then
    match PyStr.rfind "/" url with
    | Some j =>
        match PyStr.find_from ";" j url with
        | Some i => (PyStr.take i url, PyStr.drop (S i) url)
        | None => (url, EmptyString)
        end
    | None => (url, EmptyString)
    end
  else
    match PyStr.find ";" url with
    | Some i => (PyStr.take i url, PyStr.drop (S i) url)
    | None =>
        (* [i = -1]: [url[:-1]] and [url[0:]]; excluded by the caller's
           test [';' in url] *)
        (PyStr.take (String.length url - 1) url, url)
    end.

(** [_splitnetloc(url, start)] *)
Definition _splitnetloc (url : string) (start : nat) : string * string :=
  let step (delim : nat) (c : ascii) : nat :=
    match PyStr.find_from c start url with
    | Some wdelim => Nat.min delim wdelim
    | None => delim
    end in
  let delim := List.fold_left step ["/"; "?"; "#"]%char (String.length url) in
  (PyStr.drop start (PyStr.take delim url), PyStr.drop delim url).

(** [_checknetloc]: for a netloc that is not pure ASCII the library
    compares the netloc with its NFKC normal form and raises when the
    normal form gains one of [/?#@:]. No code point below 256 normalises
    to text containing one of these, so on the strings modelled here the
    check always passes. *)
Definition _checknetloc (netloc : string) : result unit :=
  if PyStr.is_empty netloc || PyStr.forallb PyStr.isascii netloc then ret tt
  else ret tt.

Inductive ip_version : Type := IPv4 | IPv6.

Definition is_hex (c : ascii) : bool :=
  PyStr.between 48 57 c || PyStr.between 65 70 c || PyStr.between 97 102 c.

(** [re.match(r"\Av[a-fA-F0-9]+\..+\Z", hostname)]: a [v], a non-empty run
    of hex digits (greedy: the next character must be the dot), a dot and
    a non-empty rest without a line feed. *)
Definition ipvfuture_ok (hostname : string) : bool :=
  match hostname with
  | String "v" rest =>
      let after_hex := PyStr.lstrip is_hex rest in
      negb (String.length after_hex =? String.length rest)%nat
      && match after_hex with
         | String "." tail =>
             negb (PyStr.is_empty tail) && negb (PyStr.has_char LF tail)
         | _ => false
         end
  | _ => false
  end.

Section WithIpAddress.

(** [ipaddress.ip_address] of the standard library: [None] when it raises
    [ValueError], otherwise the kind of address it parsed. *)
Variable ip_address : string -> option ip_version.

(** [_check_bracketed_host] *)
Definition _check_bracketed_host (hostname : string) : result unit :=
  if PyStr.startswith "v" hostname then
    if ipvfuture_ok hostname then ret tt
    else raise (ValueError "IPvFuture address is invalid")
  else
    match ip_address hostname with
    | None => raise (ValueError "does not appear to be an IPv4 or IPv6 address")
    | Some IPv4 => raise (ValueError "An IPv4 address cannot be in brackets")
    | Some IPv6 => ret tt
    end.

(** [_check_bracketed_netloc] *)
Definition _check_bracketed_netloc (netloc : string) : result unit :=
  let '(_, _, hostname_and_port) := PyStr.rpartition "@" netloc in
  let '(before_bracket, have_open_br, bracketed) :=
    PyStr.partition "[" hostname_and_port in
  if have_open_br then
    if negb (PyStr.is_empty before_bracket) then
      raise (ValueError "Invalid IPv6 URL")
    else
      let '(hostname, _, port) := PyStr.partition "]" bracketed in
      if negb (PyStr.is_empty port) && negb (PyStr.startswith ":" port) then
        raise (ValueError "Invalid IPv6 URL")
      else _check_bracketed_host hostname
  else
    let '(hostname, _, _) := PyStr.partition ":" hostname_and_port in
    _check_bracketed_host hostname.

(** [urlsplit(url)] with the default [scheme=''] and
    [allow_fragments=True] *)
Definition urlsplit (url : string) : result SplitResult :=
  let url := PyStr.lstrip is_c0_control_or_space url in
  let url := remove_unsafe url in
  let '(scheme, url) :=
    match PyStr.find ":" url with
    | Some (S i' as i) =>
        if PyStr.is_ascii_alpha (match url with
                                 | String c _ => c
                                 | EmptyString => zero
                                 end)
           && PyStr.forallb is_scheme_char (PyStr.take i url)
        then (PyStr.lower (PyStr.take i url), PyStr.drop (S i) url)
        else (EmptyString, url)
    | _ => (EmptyString, url)
    end in
  '(netloc, url) <-
    (if PyStr.startswith "//" url then
       let '(netloc, rest) := _splitnetloc url 2 in
       let lb := PyStr.has_char "[" netloc in
       let rb := PyStr.has_char "]" netloc in
       if (lb && negb rb) || (rb && negb lb) then
         raise (ValueError "Invalid IPv6 URL")
       else
         (if lb && rb then _check_bracketed_netloc netloc else ret tt) ;;;
         ret (netloc, rest)
     else ret (EmptyString, url)) ;;
  let '(url, fragment) :=
    if PyStr.has_char "#" url then
      let '(a, _, b) := PyStr.partition "#" url in (a, b)
    else (url, EmptyString) in
  let '(url, query) :=
    if PyStr.has_char "?" url then
      let '(a, _, b) := PyStr.partition "?" url in (a, b)
    else (url, EmptyString) in
  _checknetloc netloc ;;;
  ret (mkSplit scheme netloc url query fragment).

(** [urlparse(url)] *)
Definition urlparse (url : string) : result ParseResult :=
  splitresult <- urlsplit url ;;
  let '(mkSplit scheme netloc url query fragment) := splitresult in
  let '(url, params) :=
    if in_list scheme uses_params && PyStr.has_char ";" url
    then _splitparams url
    else (url, EmptyString) in
  ret (mkParse scheme netloc url params query fragment).

End WithIpAddress.

End UrlParse.

(** ** Python [dict] with [str] keys and [int] values

    Insertion-ordered: assigning to a new key appends it, assigning to an
    existing key replaces the value in place. *)

Module Dict.

Definition t : Type := list (string * Z).

Definition empty : t := [].

(** [d[k] = v] *)
Fixpoint set (d : t) (k : string) (v : Z) : t :=
  match d with
  | [] => [(k, v)]
  | (k', v') :: d' =>
      if String.eqb k' k then (k', v) :: d' else (k', v') :: set d' k v
  end.

(** [d[k]] *)
Fixpoint get (d : t) (k : string) : result Z :=
  match d with
  | [] => raise (KeyError k)
  | (k', v') :: d' => if String.eqb k' k then ret v' else get d' k
  end.

(** [list(d.keys())] *)
Definition keys (d : t) : list string := List.map fst d.

(** [list(d.values())] *)
Definition values (d : t) : list Z := List.map snd d.

End Dict.

(** ** [feature_extraction.py] *)

Definition b2z (b : bool) : Z := if b then 1%Z else 0%Z.

(** The tuple passed to [domain.endswith]. *)
Definition suspicious_tlds : list string := [".tk"; ".ml"; ".ga"; ".cf"; ".gq"].

Section FeatureExtraction.

Variable ip_address : string -> option UrlParse.ip_version.

Definition extract_features (URL : string) : result Dict.t :=
  let features := Dict.empty in
  (* Basic features *)
  let features := Dict.set features "url_length" (PyStr.len URL) in
  let features := Dict.set features "num_digits" (PyStr.count_if PyStr.isdigit URL) in
  let features := Dict.set features "num_special_chars"
                    (Z.of_nat (List.length (Re.findall Re.pat_nonword URL))) in
  (* Protocol related features *)
  let features := Dict.set features "has_http"
                    (b2z (Re.truthy (Re.search Re.pat_http URL))) in
  let features := Dict.set features "has_https"
                    (b2z (PyStr.startswith "https" URL)) in
  (* Domain related features *)
  parsed_url <- UrlParse.urlparse ip_address URL ;;
  let domain := UrlParse.netloc parsed_url in
  let path := UrlParse.path parsed_url in
  let features := Dict.set features "num_dots" (PyStr.count "." domain) in
  let features := Dict.set features "num_hyphens" (PyStr.count "-" domain) in
  let features := Dict.set features "domain_length" (PyStr.len domain) in
  let features := Dict.set features "num_params" (PyStr.count "?" URL) in
  let features := Dict.set features "path_length" (PyStr.len path) in
  (* Additional phishing detection features *)
  let features := Dict.set features "has_ip_address"
                    (b2z (Re.truthy (Re.search Re.pat_ip domain))) in
  let features := Dict.set features "is_shortened"
                    (b2z (Re.truthy (Re.search Re.pat_shortener domain))) in
  let features := Dict.set features "has_at_symbol" (b2z (PyStr.has_char "@" URL)) in
  let features := Dict.set features "num_subdomains" (PyStr.count "." domain - 1)%Z in
  let features := Dict.set features "has_malformed_url"
                    (b2z (Re.truthy (Re.search Re.pat_malformed URL))) in
  let features := Dict.set features "num_encoded_chars" (PyStr.count "%" URL) in
  let features := Dict.set features "has_suspicious_tld"
                    (b2z (PyStr.endswith_any suspicious_tlds domain)) in
  ret features.

End FeatureExtraction.

(** The feature names in the order [extract_features] assigns them. *)
Definition schema : list string :=
  ["url_length"; "num_digits"; "num_special_chars"; "has_http"; "has_https";
   "num_dots"; "num_hyphens"; "domain_length"; "num_params"; "path_length";
   "has_ip_address"; "is_shortened"; "has_at_symbol"; "num_subdomains";
   "has_malformed_url"; "num_encoded_chars"; "has_suspicious_tld"].

(** [[f(x) for x in xs]] for a fallible [f]: the first exception aborts. *)
Fixpoint map_result {A B : Type} (f : A -> result B) (xs : list A) : result (list B) :=
  match xs with
  | [] => ret []
  | x :: xs' => y <- f x ;; ys <- map_result f xs' ;; ret (y :: ys)
  end.

(** [xs[0]] *)
Definition index0 {A : Type} (xs : list A) : result A :=
  match xs with
  | [] => raise (IndexError "index 0 is out of bounds")
  | x :: _ => ret x
  end.

(** ** pandas *)

Module Pandas.

(** What [pd.read_csv] yields: the header and the rows of text cells. *)
Record DataFrame : Type := mkFrame {
  columns : list string;
  rows : list (list string)
}.

(** [data.columns = data.columns.str.strip()] *)
Definition strip_columns (data : DataFrame) : DataFrame :=
  mkFrame (List.map PyStr.strip (columns data)) (rows data).

Fixpoint position (name : string) (cols : list string) : option nat :=
  match cols with
  | [] => None
  | c :: cols' =>
      if String.eqb c name then Some O
      else option_map S (position name cols')
  end.

(** [data[name]]: the cells of the column labelled [name] (the first one
    with that label), [KeyError] when no column carries the label. *)
Definition getitem (data : DataFrame) (name : string) : result (list string) :=
  match position name (columns data) with
  | None => raise (KeyError name)
  | Some i => ret (List.map (fun r => List.nth i r EmptyString) (rows data))
  end.

(** A numeric frame; [None] is a missing value (NaN). *)
Record FeatureFrame : Type := mkFeatureFrame {
  f_columns : list string;
  f_rows : list (list (option Z))
}.

Definition lookup (d : Dict.t) (k : string) : option Z :=
  match Dict.get d k with
  | inr v => Some v
  | inl _ => None
  end.

(** The union of the keys, in order of first appearance. *)
Definition add_keys (seen : list string) (d : Dict.t) : list string :=
  List.fold_left
    (fun acc k => if List.existsb (String.eqb k) acc then acc else (acc ++ [k])%list)
    (Dict.keys d) seen.

(** [pd.DataFrame(dicts)] for a list of dicts *)
Definition from_dicts (dicts : list Dict.t) : FeatureFrame :=
  let cols := List.fold_left add_keys dicts [] in
  mkFeatureFrame cols
    (List.map (fun d => List.map (lookup d) cols) dicts).

End Pandas.

(** ** scikit-learn and joblib

    A fitted classifier is opaque: all the scripts use of it is [predict]
    and [predict_proba], each giving one entry per row of the frame. *)

Record TrainedModel : Type := mkModel {
  predict : Pandas.FeatureFrame -> list Z;
  predict_proba : Pandas.FeatureFrame -> list (list Q)
}.

Inductive classifier : Type :=
| GradientBoostingClassifier
| RandomForestClassifier.

(** Accesses to the artifact store, in the order they happen. *)
Inductive event : Type :=
| Load (path : string)
| Dump (path : string).

(** The part of the process environment the scripts touch: the dataset
    file, the artifact store and the log of accesses to that store. *)
Record World : Type := mkWorld {
  dataset_csv : option Pandas.DataFrame;
  artifacts : string -> option TrainedModel;
  trace : list event
}.

(** Computations that may raise and that read or write the [World]. *)
Definition io (A : Type) : Type := World -> result A * World.

Definition io_ret {A : Type} (a : A) : io A := fun w => (inr a, w).

Definition io_bind {A B : Type} (m : io A) (k : A -> io B) : io B :=
  fun w =>
    match m w with
    | (inl e, w') => (inl e, w')
    | (inr a, w') => k a w'
    end.

(** A pure fallible step inside [io]. *)
Definition lift {A : Type} (r : result A) : io A := fun w => (r, w).

Notation "x <~ m ;; k" := (io_bind m (fun x => k))
  (at level 61, m at next level, right associativity).

(** [pd.read_csv('dataset.csv')] *)
Definition read_csv : io Pandas.DataFrame :=
  fun w =>
    match dataset_csv w with
    | Some data => (inr data, w)
    | None => (inl (FileNotFoundError "dataset.csv"), w)
    end.

(** [joblib.load(path)]: reads the artifact from the store. *)
Definition joblib_load (path : string) : io TrainedModel :=
  fun w =>
    let w' := mkWorld (dataset_csv w) (artifacts w) (trace w ++ [Load path])%list in
    match artifacts w path with
    | Some model => (inr model, w')
    | None => (inl (FileNotFoundError path), w')
    end.

(** [joblib.dump(model, path)] *)
Definition joblib_dump (model : TrainedModel) (path : string) : io unit :=
  fun w =>
    (inr tt,
     mkWorld (dataset_csv w)
       (fun p => if String.eqb p path then Some model else artifacts w p)
       (trace w ++ [Dump path])%list).

(** [max(xs)] *)
Fixpoint max_from (m : Q) (xs : list Q) : Q :=
  match xs with
  | [] => m
  | x :: xs' => max_from (if Qle_bool x m then m else x) xs'
  end.

Definition py_max (xs : list Q) : result Q :=
  match xs with
  | [] => raise (ValueError "max() arg is an empty sequence")
  | x :: xs' => ret (max_from x xs')
  end.

(** [request.form[k]]: the first value sent under [k]; a missing field
    raises (Flask's [BadRequestKeyError], a [KeyError]). *)
Fixpoint form_get (form : list (string * string)) (k : string) : result string :=
  match form with
  | [] => raise (KeyError k)
  | (k', v) :: form' => if String.eqb k' k then ret v else form_get form' k
  end.

Section Scripts.

Variable ip_address : string -> option UrlParse.ip_version.

(** [train_test_split(X, y, test_size=0.2, random_state=42)] followed by
    the construction of the classifier and [model.fit(X_train, y_train)]. *)
Variable split_and_fit :
  classifier -> Pandas.FeatureFrame -> list string -> result TrainedModel.

(** *** [model.py] (gradient boosting): the column labels are used as
    read. The evaluation line only prints. *)
Definition model_py : io unit :=
  data <~ read_csv ;;
  urls <~ lift (Pandas.getitem data "URL") ;;
  features <~ lift (map_result (extract_features ip_address) urls) ;;
  let feature_data := Pandas.from_dicts features in
  let X := feature_data in
  y <~ lift (Pandas.getitem data "Label") ;;
  model <~ lift (split_and_fit GradientBoostingClassifier X y) ;;
  joblib_dump model "phishing_model.pkl".

(** *** [model-checkpoint.py] (random forest): the column labels are
    stripped first. *)
Definition model_checkpoint_py : io unit :=
  data <~ read_csv ;;
  let data := Pandas.strip_columns data in
  urls <~ lift (Pandas.getitem data "URL") ;;
  features <~ lift (map_result (extract_features ip_address) urls) ;;
  let feature_data := Pandas.from_dicts features in
  let X := feature_data in
  y <~ lift (Pandas.getitem data "Label") ;;
  model <~ lift (split_and_fit RandomForestClassifier X y) ;;
  joblib_dump model "phishing_model.pkl".

(** *** [app.py] *)
Definition predict_URL (URL : string) : io (Z * Q) :=
  model <~ joblib_load "phishing_model.pkl" ;;
  features <~ lift (extract_features ip_address URL) ;;
  let features_df := Pandas.from_dicts [features] in
  prediction <~ lift (index0 (predict model features_df)) ;;
  prediction_proba <~ lift (index0 (predict_proba model features_df)) ;;
  confidence <~ lift (m <- py_max prediction_proba ;; ret (m * 100)%Q) ;;
  io_ret (prediction, confidence).

(** [analyze]: the verdict shown for a request ([result_text]) and the
    confidence. *)
Definition analyze (URL : string) : io (bool * Q) :=
  r <~ predict_URL URL ;;
  let '(result, confidence) := r in
  let result_text := if (result =? 1)%Z then false else true in
  io_ret (result_text, confidence).

(** A process serving the requests [urls] one after the other. *)
Fixpoint serve (urls : list string) (w : World) : World :=
  match urls with
  | [] => w
  | u :: urls' => serve urls' (snd (predict_URL u w))
  end.

(** *** [model-checkpoint.py], [predict_URL]: the label alone. *)
Definition predict_URL_checkpoint (URL : string) : io Z :=
  model <~ joblib_load "phishing_model.pkl" ;;
  features <~ lift (extract_features ip_address URL) ;;
  let features_df := Pandas.from_dicts [features] in
  prediction <~ lift (index0 (predict model features_df)) ;;
  io_ret prediction.

(** [analyze] as the route runs it: [URL = request.form['URL']] first. *)
Definition analyze_request (form : list (string * string)) : io (bool * Q) :=
  URL <~ lift (form_get form "URL") ;;
  analyze URL.

End Scripts.

(** The number of reads of the artifact store in a log. *)
Definition loads (t : list event) : nat :=
  List.length (List.filter (fun e => match e with Load _ => true | Dump _ => false end) t).

(** ** Concrete inputs

    Instances at which the scripts are run in the examples below. *)

(** An address parser that takes every bracketed literal for an IPv6
    address. The example URLs carry no brackets, so the parser is never
    consulted on them. *)
Definition lenient_ip_address : string -> option UrlParse.ip_version :=
  fun _ => Some UrlParse.IPv6.

(** A classifier that answers class [1] with probabilities [1/4] and [3/4]
    on every row. *)
Definition sample_model : TrainedModel :=
  mkModel
    (fun X => List.map (fun _ => 1%Z) (Pandas.f_rows X))
    (fun X => List.map (fun _ => [1 # 4; 3 # 4]) (Pandas.f_rows X)).

Definition sample_fit
  : classifier -> Pandas.FeatureFrame -> list string -> result TrainedModel :=
  fun _ _ _ => ret sample_model.

(** A process environment in which the artifact has been persisted. *)
Definition serving_world : World :=
  mkWorld None
    (fun p => if String.eqb p "phishing_model.pkl" then Some sample_model else None)
    [].

(** A dataset whose header carries incidental blanks around the labels. *)
Definition padded_dataset : Pandas.DataFrame :=
  Pandas.mkFrame [" URL "; " Label "]
    [["http://example.com"; "0"]; ["http://192.168.0.1/login"; "1"]].

Definition padded_world : World :=
  mkWorld (Some padded_dataset) (fun _ => None) [].

(** The part of a string before its first dot (the whole string when it has
    none), and the test that no ["//"] occurs in it. *)
Definition before_first_dot (url : string) : string :=
  let '(before, _, _) := PyStr.partition "." url in before.

Definition no_double_slash_before_first_dot (url : string) : bool :=
  negb (PyStr.contains "//" (before_first_dot url)).

(** [s] has [sub] as a substring. *)
Definition substring_of (sub s : string) : Prop :=
  exists pre post : string, s = pre ++ sub ++ post.

(** The string as [urlsplit] reads it: leading C0 controls and blanks
    stripped, then tab, carriage return and line feed removed. *)
Definition cleaned (url : string) : string :=
  UrlParse.remove_unsafe (PyStr.lstrip UrlParse.is_c0_control_or_space url).

Fixpoint last_char (s : string) : option ascii :=
  match s with
  | EmptyString => None
  | String c EmptyString => Some c
  | String _ s' => last_char s'
  end.

Definition space_at (o : option ascii) : bool :=
  match o with
  | Some c => PyStr.isspace c
  | None => false
  end.

(** [s] neither starts nor ends with a whitespace character. *)
Definition is_trimmed (s : string) : bool :=
  negb (space_at (Re.head s)) && negb (space_at (last_char s)).

(** A two-class probability distribution. *)
Definition binary_distribution (p0 p1 : Q) : Prop :=
  (0 <= p0 /\ 0 <= p1 /\ p0 + p1 == 1)%Q.

(** A dataset with clean labels, one row per sample. *)
Definition sample_dataset : Pandas.DataFrame :=
  Pandas.mkFrame ["URL"; "Label"]
    [["http://example.com"; "0"]; ["http://192.168.0.1/login"; "1"]].

Definition training_world : World :=
  mkWorld (Some sample_dataset) (fun _ => None) [].

(** A dataset one of whose URLs the parser rejects. *)
Definition broken_dataset : Pandas.DataFrame :=
  Pandas.mkFrame ["URL"; "Label"]
    [["http://example.com"; "0"]; ["http://[::1"; "1"]].

Definition broken_world : World :=
  mkWorld (Some broken_dataset) (fun _ => None) [].

(** A URL with a leading blank and a tab inside the host name. *)
Definition blank_padded_url : string :=
  String (ascii_of_N 32)
    ("http://a-b.exa" ++ String UrlParse.TAB "mple.tk/x").

(** The words a pattern can consume, position conditions apart: [\b]
    consumes nothing. *)
Fixpoint lang (r : Re.regex) (w : string) : Prop :=
  match r with
  | Re.Eps => w = EmptyString
  | Re.Cls f => exists c, w = String c EmptyString /\ f c = true
  | Re.Seq r1 r2 => exists w1 w2, w = w1 ++ w2 /\ lang r1 w1 /\ lang r2 w2
  | Re.Alt r1 r2 => lang r1 w \/ lang r2 w
  | Re.WordBoundary => w = EmptyString
  end.

(** [s] ends with [suffix]. *)
Definition suffix_of (suffix s : string) : Prop :=
  exists pre : string, s = pre ++ suffix.

(** The features computed from the parsed URL. *)
Definition parsed_features : list string :=
  ["num_dots"; "num_hyphens"; "domain_length"; "path_length";
   "has_ip_address"; "is_shortened"; "num_subdomains"; "has_suspicious_tld"].

(** ** The memo table of [urlsplit]

    [urlsplit] is wrapped in [functools.lru_cache(typed=True)] (default
    [maxsize=128]): the one piece of state a call of [extract_features]
    reads and writes. An entry is keyed by the call's arguments
    [(url, scheme, allow_fragments)]; the table is kept most recently used
    first. *)

Module UrlCache.

Definition key : Type := (string * string * bool)%type.

Definition key_eqb (a b : key) : bool :=
  let '(u1, s1, f1) := a in
  let '(u2, s2, f2) := b in
  String.eqb u1 u2 && String.eqb s1 s2 && Bool.eqb f1 f2.

Definition t : Type := list (key * UrlParse.SplitResult).

Definition maxsize : nat := 128.

(** [cache_get(key)] *)
Fixpoint get (c : t) (k : key) : option UrlParse.SplitResult :=
  match c with
  | [] => None
  | (k', r) :: c' => if key_eqb k' k then Some r else get c' k
  end.

Fixpoint remove (c : t) (k : key) : t :=
  match c with
  | [] => []
  | (k', r) :: c' => if key_eqb k' k then remove c' k else (k', r) :: remove c' k
  end.

(** A hit moves the entry to the front of the queue. *)
Definition touch (c : t) (k : key) (r : UrlParse.SplitResult) : t :=
  (k, r) :: remove c k.

(** A miss puts the new entry at the front; a full table drops its least
    recently used entry. *)
Definition store (c : t) (k : key) (r : UrlParse.SplitResult) : t :=
  (k, r) :: List.firstn (maxsize - 1) c.

End UrlCache.

Section CachedExtraction.

Variable ip_address : string -> option UrlParse.ip_version.

(** [urlsplit(url, '', True)] through the wrapper: a hit returns the stored
    result, a miss runs the function and stores what it returns; an
    exception is not stored. *)
Definition urlsplit_cached (url : string) (c : UrlCache.t)
  : result UrlParse.SplitResult * UrlCache.t :=
  let k : UrlCache.key := (url, EmptyString, true) in
  match UrlCache.get c k with
  | Some r => (inr r, UrlCache.touch c k r)
  | None =>
      match UrlParse.urlsplit ip_address url with
      | inr r => (inr r, UrlCache.store c k r)
      | inl e => (inl e, c)
      end
  end.

(** [urlparse(url)], the memo table threaded through. *)
Definition urlparse_cached (url : string) (c : UrlCache.t)
  : result UrlParse.ParseResult * UrlCache.t :=
  let '(split, c') := urlsplit_cached url c in
  (splitresult <- split ;;
   let '(UrlParse.mkSplit scheme netloc url query fragment) := splitresult in
   let '(url, params) :=
     if UrlParse.in_list scheme UrlParse.uses_params && PyStr.has_char ";" url
     then UrlParse._splitparams url
     else (url, EmptyString) in
   ret (UrlParse.mkParse scheme netloc url params query fragment),
   c').

(** [extract_features(URL)], the memo table threaded through. *)
Definition extract_features_cached (URL : string) (c : UrlCache.t)
  : result Dict.t * UrlCache.t :=
  let features := Dict.empty in
  let features := Dict.set features "url_length" (PyStr.len URL) in
  let features := Dict.set features "num_digits" (PyStr.count_if PyStr.isdigit URL) in
  let features := Dict.set features "num_special_chars"
                    (Z.of_nat (List.length (Re.findall Re.pat_nonword URL))) in
  let features := Dict.set features "has_http"
                    (b2z (Re.truthy (Re.search Re.pat_http URL))) in
  let features := Dict.set features "has_https"
                    (b2z (PyStr.startswith "https" URL)) in
  let '(parsed, c') := urlparse_cached URL c in
  (parsed_url <- parsed ;;
   let domain := UrlParse.netloc parsed_url in
   let path := UrlParse.path parsed_url in
   let features := Dict.set features "num_dots" (PyStr.count "." domain) in
   let features := Dict.set features "num_hyphens" (PyStr.count "-" domain) in
   let features := Dict.set features "domain_length" (PyStr.len domain) in
   let features := Dict.set features "num_params" (PyStr.count "?" URL) in
   let features := Dict.set features "path_length" (PyStr.len path) in
   let features := Dict.set features "has_ip_address"
                     (b2z (Re.truthy (Re.search Re.pat_ip domain))) in
   let features := Dict.set features "is_shortened"
                     (b2z (Re.truthy (Re.search Re.pat_shortener domain))) in
   let features := Dict.set features "has_at_symbol" (b2z (PyStr.has_char "@" URL)) in
   let features := Dict.set features "num_subdomains" (PyStr.count "." domain - 1)%Z in
   let features := Dict.set features "has_malformed_url"
                     (b2z (Re.truthy (Re.search Re.pat_malformed URL))) in
   let features := Dict.set features "num_encoded_chars" (PyStr.count "%" URL) in
   let features := Dict.set features "has_suspicious_tld"
                     (b2z (PyStr.endswith_any suspicious_tlds domain)) in
   ret features,
   c').

(** The table holds, under the keys of the default-argument calls, results
    [urlsplit] itself returned. Entries under other keys (calls with a
    scheme, or without fragments) are not constrained. *)
Definition cache_consistent (c : UrlCache.t) : Prop :=
  forall (url : string) (r : UrlParse.SplitResult),
    UrlCache.get c (url, EmptyString, true) = Some r ->
    UrlParse.urlsplit ip_address url = inr r.

(** The table after the process has extracted the features of [urls], one
    after the other, starting from table [c]. *)
Fixpoint after_calls (urls : list string) (c : UrlCache.t) : UrlCache.t :=
  match urls with
  | [] => c
  | u :: urls' => after_calls urls' (snd (extract_features_cached u c))
  end.

End CachedExtraction.

(** Two outcomes of the extractor are the same: the same exception, or
    dicts with the same keys in the same order and the same value under
    every name. *)
Definition same_outcome (r1 r2 : result Dict.t) : Prop :=
  match r1, r2 with
  | inr fv1, inr fv2 =>
      Dict.keys fv1 = Dict.keys fv2
      /\ forall name, Dict.get fv1 name = Dict.get fv2 name
  | inl e1, inl e2 => e1 = e2
  | _, _ => False
  end.

(** * Properties *)

(** ** The error monad *)

Lemma bind_inr {A B : Type} (m : result A) (k : A -> result B) (a : A) :
  m = inr a -> bind m k = k a.
Proof. intros ->. reflexivity. Qed.

Lemma bind_inl {A B : Type} (m : result A) (k : A -> result B) (e : exn) :
  m = inl e -> bind m k = inl e.
Proof. intros ->. reflexivity. Qed.

(** ** The feature extractor *)

Section ExtractorProperties.

Variable ip_address : string -> option UrlParse.ip_version.

Local Abbreviation extract := (extract_features ip_address).
Local Abbreviation parse := (UrlParse.urlparse ip_address).

(** The dict a successful run builds, entry by entry. *)
Lemma extract_features_parsed (URL : string) (p : UrlParse.ParseResult) :
  parse URL = inr p ->
  extract URL =
  inr [ ("url_length", PyStr.len URL);
        ("num_digits", PyStr.count_if PyStr.isdigit URL);
        ("num_special_chars",
          Z.of_nat (List.length (Re.findall Re.pat_nonword URL)));
        ("has_http", b2z (Re.truthy (Re.search Re.pat_http URL)));
        ("has_https", b2z (PyStr.startswith "https" URL));
        ("num_dots", PyStr.count "." (UrlParse.netloc p));
        ("num_hyphens", PyStr.count "-" (UrlParse.netloc p));
        ("domain_length", PyStr.len (UrlParse.netloc p));
        ("num_params", PyStr.count "?" URL);
        ("path_length", PyStr.len (UrlParse.path p));
        ("has_ip_address",
          b2z (Re.truthy (Re.search Re.pat_ip (UrlParse.netloc p))));
        ("is_shortened",
          b2z (Re.truthy (Re.search Re.pat_shortener (UrlParse.netloc p))));
        ("has_at_symbol", b2z (PyStr.has_char "@" URL));
        ("num_subdomains", (PyStr.count "." (UrlParse.netloc p) - 1)%Z);
        ("has_malformed_url",
          b2z (Re.truthy (Re.search Re.pat_malformed URL)));
        ("num_encoded_chars", PyStr.count "%" URL);
        ("has_suspicious_tld",
          b2z (PyStr.endswith_any suspicious_tlds (UrlParse.netloc p))) ].
Proof.
  intros Hp. unfold extract_features. rewrite Hp. reflexivity.
Qed.

(** The only step of the extractor that can raise is the parser. *)
Lemma extract_features_raises (URL : string) (e : exn) :
  parse URL = inl e -> extract URL = inl e.
Proof.
  intros Hp. unfold extract_features. rewrite Hp. reflexivity.
Qed.

Lemma extract_features_inv (URL : string) (fv : Dict.t) :
  extract URL = inr fv -> exists p, parse URL = inr p.
Proof.
  intros H. destruct (parse URL) as [e | p] eqn:Hp.
  - rewrite (extract_features_raises _ _ Hp) in H. discriminate.
  - now exists p.
Qed.

Lemma extract_features_keys (URL : string) (fv : Dict.t) :
  extract URL = inr fv -> Dict.keys fv = schema.
Proof.
  intros H. destruct (extract_features_inv _ _ H) as [p Hp].
  rewrite (extract_features_parsed _ _ Hp) in H.
  injection H as <-. reflexivity.
Qed.

End ExtractorProperties.

(** ** Frames built from feature dicts *)

Lemma add_keys_first (d : Dict.t) :
  Dict.keys d = schema -> Pandas.add_keys [] d = schema.
Proof. unfold Pandas.add_keys. intros ->. reflexivity. Qed.

Lemma add_keys_again (d : Dict.t) :
  Dict.keys d = schema -> Pandas.add_keys schema d = schema.
Proof. unfold Pandas.add_keys. intros ->. reflexivity. Qed.

Lemma fold_add_keys_schema (dicts : list Dict.t) :
  Forall (fun d => Dict.keys d = schema) dicts ->
  List.fold_left Pandas.add_keys dicts schema = schema.
Proof.
  induction 1 as [| d dicts Hd _ IH]; simpl.
  - reflexivity.
  - rewrite (add_keys_again d Hd). exact IH.
Qed.

(** A frame built from at least one dict with the schema's keys has the
    schema as its column labels. *)
Lemma from_dicts_columns (dicts : list Dict.t) :
  dicts <> [] ->
  Forall (fun d => Dict.keys d = schema) dicts ->
  Pandas.f_columns (Pandas.from_dicts dicts) = schema.
Proof.
  intros Hne Hall. destruct Hall as [| d dicts Hd Hall]; [congruence |].
  unfold Pandas.from_dicts. cbn [Pandas.f_columns List.fold_left].
  rewrite (add_keys_first d Hd). now apply fold_add_keys_schema.
Qed.

Lemma map_result_Forall {A B : Type} (f : A -> result B) (P : B -> Prop) :
  (forall x y, f x = inr y -> P y) ->
  forall xs ys, map_result f xs = inr ys -> Forall P ys.
Proof.
  intros Hf. induction xs as [| x xs IH]; intros ys H; simpl in H.
  - injection H as <-. constructor.
  - destruct (f x) as [e | y] eqn:Hx; [discriminate |].
    cbn [bind] in H.
    destruct (map_result f xs) as [e | ys'] eqn:Hxs; [discriminate |].
    cbn [bind ret] in H. injection H as <-.
    constructor; [now apply (Hf x) | now apply IH].
Qed.

Lemma map_result_length {A B : Type} (f : A -> result B) :
  forall xs ys, map_result f xs = inr ys -> List.length ys = List.length xs.
Proof.
  induction xs as [| x xs IH]; intros ys H; simpl in H.
  - injection H as <-. reflexivity.
  - destruct (f x) as [e | y]; [discriminate |]. cbn [bind] in H.
    destruct (map_result f xs) as [e | ys'] eqn:Hxs; [discriminate |].
    cbn [bind ret] in H. injection H as <-. simpl. f_equal. now apply IH.
Qed.

(** ** The matcher on literal patterns *)

Lemma exec_lit {A : Type} (w rest : string) (prev : option ascii)
    (k : option ascii -> string -> option A) :
  (forall p, k p rest <> None) ->
  Re.exec (Re.lit w) prev (w ++ rest) k <> None.
Proof.
  intros Hk. revert prev. induction w as [| c w IH]; intros prev; simpl.
  - apply Hk.
  - rewrite Ascii.eqb_refl. apply IH.
Qed.

Lemma match_at_lit (w rest : string) (prev : option ascii) :
  Re.match_at (Re.lit w) prev (w ++ rest) <> None.
Proof. unfold Re.match_at. apply exec_lit. discriminate. Qed.

Lemma match_at_alt_l (r1 r2 : Re.regex) (prev : option ascii) (s : string) :
  Re.match_at r1 prev s <> None -> Re.match_at (Re.Alt r1 r2) prev s <> None.
Proof.
  unfold Re.match_at. simpl.
  destruct (Re.exec r1 prev s _); [discriminate | congruence].
Qed.

Lemma match_at_alt_r (r1 r2 : Re.regex) (prev : option ascii) (s : string) :
  Re.match_at r2 prev s <> None -> Re.match_at (Re.Alt r1 r2) prev s <> None.
Proof.
  unfold Re.match_at. simpl.
  destruct (Re.exec r1 prev s _); [discriminate | trivial].
Qed.

(** A match at some position makes the search succeed. *)
Lemma search_from_found (r : Re.regex) (pre s : string) :
  (forall p, Re.match_at r p s <> None) ->
  forall prev, Re.search_from r prev (pre ++ s) <> None.
Proof.
  intros Hm. induction pre as [| c pre IH]; intros prev.
  - simpl. specialize (Hm prev).
    destruct s; simpl; destruct (Re.match_at r prev _); congruence.
  - simpl. destruct (Re.match_at r prev _); [discriminate | apply IH].
Qed.

Lemma truthy_search (r : Re.regex) (pre s : string) :
  (forall p, Re.match_at r p s <> None) ->
  Re.truthy (Re.search r (pre ++ s)) = true.
Proof.
  intros Hm. unfold Re.search.
  pose proof (search_from_found r pre s Hm None) as H.
  destruct (Re.search_from r None (pre ++ s)); [reflexivity | congruence].
Qed.

Lemma substring_shorter (w1 w2 s : string) :
  substring_of (w1 ++ w2) s -> substring_of w1 s.
Proof.
  intros (pre & post & ->). exists pre, (w2 ++ post).
  f_equal. clear. induction w1 as [| c w1 IH]; simpl; [reflexivity | now f_equal].
Qed.

Lemma search_pat_http (s : string) :
  substring_of "http://" s \/ substring_of "https://" s ->
  Re.truthy (Re.search Re.pat_http s) = true.
Proof.
  intros [(pre & post & ->) | (pre & post & ->)]; apply truthy_search; intros p.
  - apply match_at_alt_l. apply (match_at_lit "http://").
  - apply match_at_alt_r. apply (match_at_lit "https://").
Qed.

Lemma search_pat_malformed (s : string) :
  substring_of "http:/" s \/ substring_of "https:/" s ->
  Re.truthy (Re.search Re.pat_malformed s) = true.
Proof.
  intros [(pre & post & ->) | (pre & post & ->)]; apply truthy_search; intros p.
  - apply match_at_alt_l. apply (match_at_lit "http:/").
  - apply match_at_alt_r. apply (match_at_lit "https:/").
Qed.

(** ** The maximum of a two-class distribution *)

Lemma max_from_pair (p0 p1 : Q) :
  (max_from p0 [p1] == Qmax p0 p1)%Q.
Proof.
  simpl. destruct (Qle_bool p1 p0) eqn:H.
  - apply Qle_bool_iff in H. symmetry. now apply Q.max_l.
  - assert (Hlt : (p0 <= p1)%Q).
    { destruct (Qlt_le_dec p0 p1) as [Hl | Hl].
      - now apply Qlt_le_weak.
      - apply Qle_bool_iff in Hl. congruence. }
    symmetry. now apply Q.max_r.
Qed.

Lemma max_pair_bounds (p0 p1 : Q) :
  binary_distribution p0 p1 -> (1 # 2 <= Qmax p0 p1 <= 1)%Q.
Proof.
  intros (H0 & H1 & Hsum).
  destruct (Qlt_le_dec p0 p1) as [Hl | Hl].
  - rewrite (Q.max_r p0 p1) by now apply Qlt_le_weak. split; lra.
  - rewrite (Q.max_l p0 p1) by assumption. split; lra.
Qed.

(** ** The predictor and the artifact store *)

Section PredictorProperties.

Variable ip_address : string -> option UrlParse.ip_version.

Local Abbreviation extract := (extract_features ip_address).
Local Abbreviation predict_url := (predict_URL ip_address).

(** Whatever the outcome of a call, it has read the artifact once and
    written nothing. *)
Lemma predict_URL_world (URL : string) (w : World) :
  snd (predict_url URL w) =
  mkWorld (dataset_csv w) (artifacts w)
    (trace w ++ [Load "phishing_model.pkl"])%list.
Proof.
  unfold predict_URL, io_bind, joblib_load, lift, io_ret.
  destruct (artifacts w "phishing_model.pkl") as [m |]; [| reflexivity].
  destruct (extract URL) as [e | fv]; [reflexivity |].
  destruct (index0 (predict m _)); [reflexivity |].
  destruct (index0 (predict_proba m _)) as [e | pr]; [reflexivity |].
  destruct (py_max pr); reflexivity.
Qed.

(** A failure of the extractor is the outcome of the call. *)
Lemma predict_URL_propagates (URL : string) (w : World) (m : TrainedModel)
    (e : exn) :
  artifacts w "phishing_model.pkl" = Some m ->
  extract URL = inl e ->
  fst (predict_url URL w) = inl e.
Proof.
  intros Hm He.
  unfold predict_URL, io_bind, joblib_load, lift, io_ret.
  rewrite Hm, He. reflexivity.
Qed.

Lemma predict_URL_returns (URL : string) (w : World) (m : TrainedModel)
    (fv : Dict.t) (label : Z) (labels : list Z) (proba : list Q)
    (probas : list (list Q)) (mx : Q) :
  artifacts w "phishing_model.pkl" = Some m ->
  extract URL = inr fv ->
  predict m (Pandas.from_dicts [fv]) = label :: labels ->
  predict_proba m (Pandas.from_dicts [fv]) = proba :: probas ->
  py_max proba = inr mx ->
  fst (predict_url URL w) = inr (label, (mx * 100)%Q).
Proof.
  intros Hm He Hl Hp Hx.
  unfold predict_URL, io_bind, joblib_load, lift, io_ret.
  rewrite Hm, He. cbn beta iota zeta. rewrite Hl, Hp. cbn [index0 ret].
  rewrite Hx. reflexivity.
Qed.

Lemma serve_trace (urls : list string) (w : World) :
  loads (trace (serve ip_address urls w)) =
  (loads (trace w) + List.length urls)%nat.
Proof.
  revert w. induction urls as [| u urls IH]; intros w; simpl.
  - lia.
  - rewrite IH, predict_URL_world. cbn [trace]. unfold loads.
    rewrite List.filter_app, List.length_app. simpl. lia.
Qed.

Lemma serve_artifacts (urls : list string) (w : World) :
  artifacts (serve ip_address urls w) = artifacts w.
Proof.
  revert w. induction urls as [| u urls IH]; intros w; simpl.
  - reflexivity.
  - rewrite IH, predict_URL_world. reflexivity.
Qed.

End PredictorProperties.

(** ** Stripping column labels *)

Lemma lstrip_head (f : ascii -> bool) (s : string) :
  match Re.head (PyStr.lstrip f s) with
  | Some c => f c = false
  | None => True
  end.
Proof.
  induction s as [| c s IH]; simpl; [exact I |].
  destruct (f c) eqn:Hc; [exact IH | simpl; exact Hc].
Qed.

Lemma rstrip_head (f : ascii -> bool) (s : string) :
  match Re.head s with
  | Some c => f c = false
  | None => True
  end ->
  Re.head (PyStr.rstrip f s) = Re.head s.
Proof.
  destruct s as [| c s]; simpl; [reflexivity |].
  intros ->. now rewrite andb_false_r.
Qed.

Lemma rstrip_last (f : ascii -> bool) (s : string) :
  match last_char (PyStr.rstrip f s) with
  | Some c => f c = false
  | None => True
  end.
Proof.
  induction s as [| c s IH]; simpl; [exact I |].
  destruct (PyStr.rstrip f s) as [| c' r] eqn:Hr; simpl.
  - destruct (f c) eqn:Hc; simpl; [exact I | exact Hc].
  - simpl in IH. exact IH.
Qed.

Lemma strip_is_trimmed (s : string) : is_trimmed (PyStr.strip s) = true.
Proof.
  unfold is_trimmed, PyStr.strip.
  pose proof (lstrip_head PyStr.isspace s) as Hh.
  pose proof (rstrip_last PyStr.isspace (PyStr.lstrip PyStr.isspace s)) as Hl.
  rewrite (rstrip_head _ _ Hh).
  destruct (Re.head _) as [c |]; destruct (last_char _) as [c' |]; simpl in *;
    rewrite ?Hh, ?Hl; reflexivity.
Qed.

(** After [model-checkpoint.py]'s second statement no column label starts
    or ends with whitespace. *)
Lemma strip_columns_trimmed (data : Pandas.DataFrame) :
  Forall (fun c => is_trimmed c = true)
    (Pandas.columns (Pandas.strip_columns data)).
Proof.
  unfold Pandas.strip_columns. cbn [Pandas.columns].
  induction (Pandas.columns data) as [| c cs IH]; simpl; constructor.
  - apply strip_is_trimmed.
  - exact IH.
Qed.

(** ** Strings without a double slash have no authority *)

Lemma contains_tail (sub : string) (c : ascii) (s : string) :
  PyStr.contains sub (String c s) = false -> PyStr.contains sub s = false.
Proof.
  simpl. intros H. apply orb_false_iff in H. destruct s; apply H.
Qed.

Lemma contains_drop (sub s : string) (n : nat) :
  PyStr.contains sub s = false -> PyStr.contains sub (PyStr.drop n s) = false.
Proof.
  revert s. induction n as [| n IH]; intros s H.
  - destruct s; exact H.
  - destruct s as [| c s]; [exact H |]. simpl. apply IH.
    now apply contains_tail with c.
Qed.

Lemma contains_lstrip (sub : string) (f : ascii -> bool) (s : string) :
  PyStr.contains sub s = false -> PyStr.contains sub (PyStr.lstrip f s) = false.
Proof.
  induction s as [| c s IH]; intros H; [exact H |].
  simpl. destruct (f c); [| exact H].
  apply IH. now apply contains_tail with c.
Qed.

Lemma contains_not_startswith (sub s : string) :
  PyStr.contains sub s = false -> PyStr.startswith sub s = false.
Proof.
  destruct s; simpl; intros H; apply orb_false_iff in H; apply H.
Qed.

Lemma has_char_tail (c a : ascii) (s : string) :
  PyStr.has_char c (String a s) = false -> PyStr.has_char c s = false.
Proof.
  unfold PyStr.has_char. simpl. intros H. apply orb_false_iff in H. apply H.
Qed.

Lemma has_char_lstrip (c : ascii) (f : ascii -> bool) (s : string) :
  PyStr.has_char c s = false -> PyStr.has_char c (PyStr.lstrip f s) = false.
Proof.
  induction s as [| a s IH]; intros H; [exact H |].
  simpl. destruct (f a); [| exact H].
  apply IH. now apply has_char_tail with a.
Qed.

Lemma remove_absent (c : ascii) (s : string) :
  PyStr.has_char c s = false -> PyStr.remove c s = s.
Proof.
  induction s as [| a s IH]; intros H; [reflexivity |].
  pose proof (has_char_tail _ _ _ H) as Ht.
  unfold PyStr.has_char in H. simpl in H. apply orb_false_iff in H.
  destruct H as [Hca _]. simpl.
  rewrite Ascii.eqb_sym, Hca. f_equal. now apply IH.
Qed.

(** Without tab, carriage return and line feed the parser reads the string
    with its leading blanks stripped. *)
Lemma cleaned_plain (url : string) :
  PyStr.has_char UrlParse.TAB url = false ->
  PyStr.has_char UrlParse.CR url = false ->
  PyStr.has_char UrlParse.LF url = false ->
  cleaned url = PyStr.lstrip UrlParse.is_c0_control_or_space url.
Proof.
  intros Ht Hc Hl. unfold cleaned, UrlParse.remove_unsafe.
  rewrite (remove_absent UrlParse.TAB) by now apply has_char_lstrip.
  rewrite (remove_absent UrlParse.CR) by now apply has_char_lstrip.
  now rewrite (remove_absent UrlParse.LF) by now apply has_char_lstrip.
Qed.

Lemma has_char_drop (c : ascii) (s : string) (n : nat) :
  PyStr.has_char c s = false -> PyStr.has_char c (PyStr.drop n s) = false.
Proof.
  revert s. induction n as [| n IH]; intros s H.
  - destruct s; exact H.
  - destruct s as [| a s]; [exact H |]. simpl. apply IH.
    now apply has_char_tail with a.
Qed.

Lemma has_char_take (c : ascii) (s : string) (n : nat) :
  PyStr.has_char c s = false -> PyStr.has_char c (PyStr.take n s) = false.
Proof.
  revert s. induction n as [| n IH]; intros s H.
  - destruct s; reflexivity.
  - destruct s as [| a s]; [reflexivity |].
    pose proof (has_char_tail _ _ _ H) as Ht.
    unfold PyStr.has_char in *. simpl in *.
    apply orb_false_iff in H. destruct H as [Ha _]. rewrite Ha. simpl.
    now apply IH.
Qed.

Lemma has_char_remove (c a : ascii) (s : string) :
  PyStr.has_char c s = false -> PyStr.has_char c (PyStr.remove a s) = false.
Proof.
  induction s as [| b s IH]; intros H; [reflexivity |].
  pose proof (has_char_tail _ _ _ H) as Ht. simpl.
  destruct (Ascii.eqb b a); [now apply IH |].
  unfold PyStr.has_char in *. simpl in *.
  apply orb_false_iff in H. destruct H as [Hb _]. rewrite Hb. simpl.
  now apply IH.
Qed.

Lemma has_char_cleaned (c : ascii) (url : string) :
  PyStr.has_char c url = false -> PyStr.has_char c (cleaned url) = false.
Proof.
  intros H. unfold cleaned, UrlParse.remove_unsafe.
  now do 3 apply has_char_remove; apply has_char_lstrip.
Qed.

Section ParserProperties.

Variable ip_address : string -> option UrlParse.ip_version.

(** When the string the parser reads has no ["//"], parsing succeeds and
    the authority is empty. *)
Lemma urlparse_no_double_slash (url : string) :
  PyStr.contains "//" (cleaned url) = false ->
  exists p,
    UrlParse.urlparse ip_address url = inr p /\ UrlParse.netloc p = "".
Proof.
  intros H. unfold UrlParse.urlparse, UrlParse.urlsplit.
  cbv zeta.
  change (UrlParse.remove_unsafe
            (PyStr.lstrip UrlParse.is_c0_control_or_space url))
    with (cleaned url).
  set (u := cleaned url) in *.
  match goal with
  | |- context [let '(scheme, url0) := ?X in _] =>
      destruct X as [sch u3] eqn:Hs
  end.
  assert (H3 : PyStr.contains "//" u3 = false).
  { destruct (PyStr.find ":" u) as [[| i] |];
      try (injection Hs as <- <-; exact H).
    destruct (_ && _); injection Hs as <- <-;
      [exact (contains_drop "//" u (S (S i)) H) | exact H]. }
  rewrite (contains_not_startswith _ _ H3).
  cbn [bind ret].
  destruct (if PyStr.has_char "#" u3 then _ else _) as [u4 frag].
  destruct (if PyStr.has_char "?" u4 then _ else _) as [u5 q].
  cbn [UrlParse._checknetloc PyStr.is_empty orb bind ret].
  destruct (if _ && _ then _ else _) as [u6 prm].
  eexists. split; reflexivity.
Qed.

(** In particular: a string with no ["//"] at all and none of tab,
    carriage return, line feed. *)
Lemma urlparse_plain_no_double_slash (url : string) :
  PyStr.contains "//" url = false ->
  PyStr.has_char UrlParse.TAB url = false ->
  PyStr.has_char UrlParse.CR url = false ->
  PyStr.has_char UrlParse.LF url = false ->
  exists p,
    UrlParse.urlparse ip_address url = inr p /\ UrlParse.netloc p = "".
Proof.
  intros H Ht Hc Hl. apply urlparse_no_double_slash.
  rewrite (cleaned_plain url Ht Hc Hl). now apply contains_lstrip.
Qed.

(** The parser only raises on square brackets in the authority: a string
    without square brackets is always accepted. *)
Lemma urlparse_without_brackets (url : string) :
  PyStr.has_char "[" url = false ->
  PyStr.has_char "]" url = false ->
  exists p, UrlParse.urlparse ip_address url = inr p.
Proof.
  intros Hl Hr.
  apply (has_char_cleaned "[") in Hl. apply (has_char_cleaned "]") in Hr.
  unfold UrlParse.urlparse, UrlParse.urlsplit.
  cbv zeta.
  change (UrlParse.remove_unsafe
            (PyStr.lstrip UrlParse.is_c0_control_or_space url))
    with (cleaned url).
  set (u := cleaned url) in *.
  match goal with
  | |- context [let '(scheme, url0) := ?X in _] =>
      destruct X as [sch u3] eqn:Hs
  end.
  assert (H3 : PyStr.has_char "[" u3 = false /\ PyStr.has_char "]" u3 = false).
  { destruct (PyStr.find ":" u) as [[| i] |];
      try (injection Hs as <- <-; now split).
    destruct (_ && _); injection Hs as <- <-; [| now split].
    split; [exact (has_char_drop "[" u (S (S i)) Hl)
           | exact (has_char_drop "]" u (S (S i)) Hr)]. }
  destruct H3 as [H3l H3r].
  destruct (PyStr.startswith "//" u3).
  - unfold UrlParse._splitnetloc.
    set (delim := List.fold_left _ _ _).
    rewrite (has_char_drop "[" _ 2 (has_char_take "[" u3 delim H3l)).
    rewrite (has_char_drop "]" _ 2 (has_char_take "]" u3 delim H3r)).
    cbn [andb orb negb bind ret].
    destruct (if PyStr.has_char "#" _ then _ else _) as [u4 frag].
    destruct (if PyStr.has_char "?" u4 then _ else _) as [u5 q].
    unfold UrlParse._checknetloc.
    destruct (_ || _); cbn [bind ret];
      destruct (if _ && _ then _ else _) as [u6 prm];
      eexists; reflexivity.
  - cbn [bind ret].
    destruct (if PyStr.has_char "#" u3 then _ else _) as [u4 frag].
    destruct (if PyStr.has_char "?" u4 then _ else _) as [u5 q].
    cbn [UrlParse._checknetloc PyStr.is_empty orb bind ret].
    destruct (if _ && _ then _ else _) as [u6 prm].
    eexists. reflexivity.
Qed.

End ParserProperties.

(** ** The memo table of the parser *)

Lemma key_eqb_eq (a b : UrlCache.key) : UrlCache.key_eqb a b = true <-> a = b.
Proof.
  destruct a as [[u1 s1] f1], b as [[u2 s2] f2]. unfold UrlCache.key_eqb.
  rewrite !andb_true_iff, !String.eqb_eq, Bool.eqb_true_iff.
  split; [intros [[-> ->] ->]; reflexivity | intros H; injection H; auto].
Qed.

Lemma key_eqb_refl (a : UrlCache.key) : UrlCache.key_eqb a a = true.
Proof. now apply key_eqb_eq. Qed.

Lemma get_remove_other (c : UrlCache.t) (k k' : UrlCache.key) :
  UrlCache.key_eqb k k' = false ->
  UrlCache.get (UrlCache.remove c k) k' = UrlCache.get c k'.
Proof.
  intros Hne. induction c as [| [k0 r0] c IH]; simpl; [reflexivity |].
  destruct (UrlCache.key_eqb k0 k) eqn:E0.
  - apply key_eqb_eq in E0. subst k0. now rewrite Hne.
  - simpl. now rewrite IH.
Qed.

Lemma get_firstn (n : nat) (c : UrlCache.t) (k : UrlCache.key)
    (r : UrlParse.SplitResult) :
  UrlCache.get (List.firstn n c) k = Some r -> UrlCache.get c k = Some r.
Proof.
  revert c. induction n as [| n IH]; intros c H; [discriminate |].
  destruct c as [| [k0 r0] c]; [discriminate |]. simpl in *.
  destruct (UrlCache.key_eqb k0 k); [exact H | now apply IH].
Qed.

Section CacheProperties.

Variable ip_address : string -> option UrlParse.ip_version.

Local Abbreviation consistent := (cache_consistent ip_address).
Local Abbreviation extract_cached := (extract_features_cached ip_address).

Lemma empty_cache_consistent : consistent [].
Proof. intros url r H. discriminate. Qed.

Lemma touch_consistent (c : UrlCache.t) (k : UrlCache.key)
    (r : UrlParse.SplitResult) :
  consistent c -> UrlCache.get c k = Some r ->
  consistent (UrlCache.touch c k r).
Proof.
  intros Hc Hk url r' H. unfold UrlCache.touch in H. simpl in H.
  destruct (UrlCache.key_eqb k (url, "", true)) eqn:E.
  - apply key_eqb_eq in E. subst k. injection H as <-. now apply Hc.
  - rewrite (get_remove_other c k _ E) in H. now apply Hc.
Qed.

Lemma store_consistent (c : UrlCache.t) (url : string)
    (r : UrlParse.SplitResult) :
  consistent c ->
  UrlParse.urlsplit ip_address url = inr r ->
  consistent (UrlCache.store c (url, "", true) r).
Proof.
  intros Hc Hr url' r' H. unfold UrlCache.store in H.
  cbn [UrlCache.get] in H.
  destruct (UrlCache.key_eqb (url, "", true) (url', "", true)) eqn:E.
  - apply key_eqb_eq in E. injection E as <-. injection H as <-. exact Hr.
  - apply get_firstn in H. now apply Hc.
Qed.

(** On a consistent table the wrapper answers as the function does, hit or
    miss, and leaves the table consistent. *)
Lemma urlsplit_cached_spec (url : string) (c : UrlCache.t) :
  consistent c ->
  fst (urlsplit_cached ip_address url c) = UrlParse.urlsplit ip_address url
  /\ consistent (snd (urlsplit_cached ip_address url c)).
Proof.
  intros Hc. unfold urlsplit_cached.
  destruct (UrlCache.get c (url, "", true)) as [r |] eqn:Hget.
  - cbn [fst snd]. split.
    + symmetry. now apply Hc.
    + now apply touch_consistent.
  - destruct (UrlParse.urlsplit ip_address url) as [e | r] eqn:Hs; cbn [fst snd].
    + now split.
    + split; [reflexivity | now apply store_consistent].
Qed.

Lemma urlparse_cached_spec (url : string) (c : UrlCache.t) :
  consistent c ->
  fst (urlparse_cached ip_address url c) = UrlParse.urlparse ip_address url
  /\ consistent (snd (urlparse_cached ip_address url c)).
Proof.
  intros Hc. destruct (urlsplit_cached_spec url c Hc) as [Hf Hs].
  unfold urlparse_cached, UrlParse.urlparse.
  destruct (urlsplit_cached ip_address url c) as [split c'].
  cbn [fst snd] in *. now rewrite Hf.
Qed.

(** On a consistent table the extractor returns what the parser's own
    result determines, and leaves the table consistent. *)
Lemma extract_features_cached_spec (URL : string) (c : UrlCache.t) :
  consistent c ->
  fst (extract_cached URL c) = extract_features ip_address URL
  /\ consistent (snd (extract_cached URL c)).
Proof.
  intros Hc. destruct (urlparse_cached_spec URL c Hc) as [Hf Hs].
  unfold extract_features_cached, extract_features.
  destruct (urlparse_cached ip_address URL c) as [parsed c'].
  cbn [fst snd] in *. now rewrite Hf.
Qed.

Lemma after_calls_consistent (urls : list string) (c : UrlCache.t) :
  consistent c -> consistent (after_calls ip_address urls c).
Proof.
  revert c. induction urls as [| u urls IH]; intros c Hc; simpl; [exact Hc |].
  apply IH. now apply extract_features_cached_spec.
Qed.

Lemma same_outcome_refl (r : result Dict.t) : same_outcome r r.
Proof. destruct r; simpl; [reflexivity | now split]. Qed.

End CacheProperties.

(** * The specification's claims *)

Section Claims.

Variable ip_address : string -> option UrlParse.ip_version.

Local Abbreviation extract := (extract_features ip_address).
Local Abbreviation parse := (UrlParse.urlparse ip_address).
Local Abbreviation predict_url := (predict_URL ip_address).

(** C1. Fixed schema. On every URL the parser accepts, [extract_features]
    returns a dict whose keys are exactly the seventeen names of [schema],
    in that order. The one-row frame the predictor builds from such a dict
    (inference path) and the frame a training script builds from the dicts
    of a non-empty dataset (training path) both carry [schema] as their
    column labels, so the two paths produce the same schema. *)
Theorem extract_features_schema (URL : string) (p : UrlParse.ParseResult) :
  parse URL = inr p ->
  exists fv,
    extract URL = inr fv
    /\ Dict.keys fv = schema
    /\ Pandas.f_columns (Pandas.from_dicts [fv]) = schema
    /\ forall urls fvs,
         urls <> [] ->
         map_result extract urls = inr fvs ->
         Pandas.f_columns (Pandas.from_dicts fvs) = schema.
Proof.
  intros Hp. eexists. split; [exact (extract_features_parsed _ _ _ Hp) |].
  split; [reflexivity |]. split; [reflexivity |].
  intros urls fvs Hne Hm. apply from_dicts_columns.
  - intros ->. apply map_result_length in Hm. destruct urls; [congruence |].
    discriminate.
  - apply (map_result_Forall extract _ (extract_features_keys ip_address) _ _ Hm).
Qed.

(** C3. Determinism. The memo table of [urlsplit] is the only state a call
    of [extract_features] reads. Whatever the process has parsed before,
    that is for any two tables holding results of [urlsplit], the two calls
    of [extract_features] on the same string have the same outcome: the same
    exception, or dicts with the same keys in the same order and the same
    value under every name. A call leaves the table in such a state, and the
    call repeated right after the first, now answered from the table, has
    the same outcome again. *)
Theorem extract_features_deterministic_across_calls
    (u : string) (c1 c2 : UrlCache.t) :
  cache_consistent ip_address c1 ->
  cache_consistent ip_address c2 ->
  same_outcome (fst (extract_features_cached ip_address u c1))
    (fst (extract_features_cached ip_address u c2))
  /\ cache_consistent ip_address
       (snd (extract_features_cached ip_address u c1))
  /\ same_outcome (fst (extract_features_cached ip_address u c1))
       (fst (extract_features_cached ip_address u
               (snd (extract_features_cached ip_address u c1)))).
Proof.
  intros H1 H2.
  destruct (extract_features_cached_spec ip_address u c1 H1) as [E1 K1].
  destruct (extract_features_cached_spec ip_address u c2 H2) as [E2 _].
  destruct (extract_features_cached_spec ip_address u _ K1) as [E3 _].
  rewrite E1, E2, E3. repeat split; [| exact K1 |]; apply same_outcome_refl.
Qed.

(** C5. Subdomain count. On every URL the parser accepts the extraction
    does not raise, and the vector has [num_subdomains = num_dots - 1] with
    [num_dots] the number of dots of the domain; when the domain has no
    dot, [num_subdomains] is [-1] (not clamped to [0]). *)
Theorem num_subdomains_is_num_dots_minus_one
    (URL : string) (p : UrlParse.ParseResult) :
  parse URL = inr p ->
  exists fv dots subdomains,
    extract URL = inr fv
    /\ Dict.get fv "num_dots" = inr dots
    /\ Dict.get fv "num_subdomains" = inr subdomains
    /\ dots = PyStr.count "." (UrlParse.netloc p)
    /\ subdomains = (dots - 1)%Z
    /\ (dots = 0%Z -> subdomains = (-1)%Z).
Proof.
  intros Hp. do 3 eexists.
  split; [exact (extract_features_parsed _ _ _ Hp) |].
  split; [reflexivity |]. split; [reflexivity |].
  split; [reflexivity |]. split; [reflexivity |].
  intros H. rewrite H. reflexivity.
Qed.

(** C6. Co-occurrence. On every URL the parser accepts that contains
    [http://] or [https://], the vector has [has_http = 1] and
    [has_malformed_url = 1]. *)
Theorem has_http_implies_has_malformed_url
    (URL : string) (p : UrlParse.ParseResult) :
  parse URL = inr p ->
  substring_of "http://" URL \/ substring_of "https://" URL ->
  exists fv,
    extract URL = inr fv
    /\ Dict.get fv "has_http" = inr 1%Z
    /\ Dict.get fv "has_malformed_url" = inr 1%Z.
Proof.
  intros Hp Hsub. eexists.
  split; [exact (extract_features_parsed _ _ _ Hp) |].
  cbn [Dict.get String.eqb Ascii.eqb Bool.eqb ret].
  rewrite (search_pat_http URL Hsub).
  rewrite (search_pat_malformed URL).
  - split; reflexivity.
  - destruct Hsub as [H | H].
    + left. exact (substring_shorter "http:/" "/" URL H).
    + right. exact (substring_shorter "https:/" "/" URL H).
Qed.

(** C7. The specification's sample URLs. *)
Theorem extract_features_examples :
  (exists fv,
     extract "http://example.com" = inr fv
     /\ Dict.get fv "has_http" = inr 1%Z
     /\ Dict.get fv "has_https" = inr 0%Z
     /\ Dict.get fv "num_dots" = inr 1%Z
     /\ Dict.get fv "num_hyphens" = inr 0%Z
     /\ Dict.get fv "has_at_symbol" = inr 0%Z
     /\ Dict.get fv "num_params" = inr 0%Z)
  /\ (exists fv,
        extract "https://bit.ly/abc123" = inr fv
        /\ Dict.get fv "has_https" = inr 1%Z
        /\ Dict.get fv "is_shortened" = inr 1%Z)
  /\ (exists fv,
        extract "http://192.168.0.1/login" = inr fv
        /\ Dict.get fv "has_ip_address" = inr 1%Z).
Proof.
  repeat split; eexists; (split; [vm_compute; reflexivity |]);
    repeat split; reflexivity.
Qed.

(** C10, amended. Whenever the parser yields an empty authority (as on
    [example.com/path]), every domain feature is that of the empty string:
    [domain_length], [num_dots], [num_hyphens], [has_ip_address],
    [is_shortened] and [has_suspicious_tld] are [0] and [num_subdomains] is
    [-1], whatever dots and hyphens the full string has. *)
Theorem empty_authority_features (URL : string) (p : UrlParse.ParseResult) :
  parse URL = inr p ->
  UrlParse.netloc p = "" ->
  exists fv,
    extract URL = inr fv
    /\ Dict.get fv "domain_length" = inr 0%Z
    /\ Dict.get fv "num_dots" = inr 0%Z
    /\ Dict.get fv "num_hyphens" = inr 0%Z
    /\ Dict.get fv "num_subdomains" = inr (-1)%Z
    /\ Dict.get fv "has_ip_address" = inr 0%Z
    /\ Dict.get fv "is_shortened" = inr 0%Z
    /\ Dict.get fv "has_suspicious_tld" = inr 0%Z.
Proof.
  intros Hp Hn. eexists.
  split; [exact (extract_features_parsed _ _ _ Hp) |].
  rewrite Hn. repeat split; reflexivity.
Qed.

End Claims.

Section PipelineClaims.

Variable ip_address : string -> option UrlParse.ip_version.
Variable split_and_fit :
  classifier -> Pandas.FeatureFrame -> list string -> result TrainedModel.

Local Abbreviation extract := (extract_features ip_address).
Local Abbreviation parse := (UrlParse.urlparse ip_address).
Local Abbreviation predict_url := (predict_URL ip_address).

(** C2, amended. [extract_features] performs no validation of its own: it
    raises exactly when the parser rejects the string, with the parser's
    [ValueError], and [predict_URL] (artifact present) then raises the same
    exception and returns no label. The empty string is accepted by the
    parser: on it the extractor returns the vector with every feature [0]
    except [num_subdomains = -1]. *)
Theorem extract_features_fails_only_with_parser :
  extract "" =
    inr [ ("url_length", 0); ("num_digits", 0); ("num_special_chars", 0);
          ("has_http", 0); ("has_https", 0); ("num_dots", 0);
          ("num_hyphens", 0); ("domain_length", 0); ("num_params", 0);
          ("path_length", 0); ("has_ip_address", 0); ("is_shortened", 0);
          ("has_at_symbol", 0); ("num_subdomains", -1);
          ("has_malformed_url", 0); ("num_encoded_chars", 0);
          ("has_suspicious_tld", 0) ]%Z
  /\ (forall (URL : string) (e : exn),
       parse URL = inl e ->
       extract URL = inl e
       /\ forall (w : World) (m : TrainedModel),
            artifacts w "phishing_model.pkl" = Some m ->
            fst (predict_url URL w) = inl e)
  /\ forall (URL : string) (p : UrlParse.ParseResult),
       parse URL = inr p -> exists fv, extract URL = inr fv.
Proof.
  split; [reflexivity |]. split.
  - intros URL e Hp.
    pose proof (extract_features_raises ip_address URL e Hp) as He.
    split; [exact He |].
    intros w m Hm. exact (predict_URL_propagates ip_address URL w m e Hm He).
  - intros URL p Hp. eexists. exact (extract_features_parsed _ _ _ Hp).
Qed.

(** C4. Confidence. When the artifact is present, the URL is accepted and
    the model gives one label and a two-class distribution [p0, p1] for
    the row, [predict_URL] returns that label with
    [confidence = 100 * max(p0, p1)], and the confidence lies in
    [[50, 100]]. *)
Theorem confidence_between_50_and_100
    (URL : string) (w : World) (m : TrainedModel) (fv : Dict.t)
    (label : Z) (labels : list Z) (p0 p1 : Q) (probas : list (list Q)) :
  artifacts w "phishing_model.pkl" = Some m ->
  extract URL = inr fv ->
  predict m (Pandas.from_dicts [fv]) = label :: labels ->
  predict_proba m (Pandas.from_dicts [fv]) = [p0; p1] :: probas ->
  binary_distribution p0 p1 ->
  exists confidence : Q,
    fst (predict_url URL w) = inr (label, confidence)
    /\ (confidence == 100 * Qmax p0 p1)%Q
    /\ (50 <= confidence <= 100)%Q.
Proof.
  intros Hm He Hl Hp Hd.
  exists (max_from p0 [p1] * 100)%Q.
  split.
  - apply (predict_URL_returns ip_address URL w m fv label labels
             [p0; p1] probas); auto.
  - pose proof (max_from_pair p0 p1) as Hmax.
    pose proof (max_pair_bounds p0 p1 Hd) as [Hlo Hhi].
    rewrite Hmax. split; [ring |]. split; lra.
Qed.

(** C8. The gradient-boosting script [model.py] looks the columns up under
    the labels as read: on a dataset whose header is [" URL ", " Label "]
    it stops with [KeyError: 'URL']. The random-forest script
    [model-checkpoint.py] strips the labels first, finds both columns on
    the same dataset and persists a model. *)
Theorem model_py_uses_labels_as_read :
  fst (model_py ip_address split_and_fit padded_world) = inl (KeyError "URL")
  /\ Pandas.getitem (Pandas.strip_columns padded_dataset) "URL"
     = inr ["http://example.com"; "http://192.168.0.1/login"]
  /\ Pandas.getitem (Pandas.strip_columns padded_dataset) "Label"
     = inr ["0"; "1"]
  /\ fst (model_checkpoint_py ip_address sample_fit padded_world) = inr tt.
Proof.
  repeat split; vm_compute; reflexivity.
Qed.

(** C9, amended. Every [predict_URL] call reads the artifact from the
    store: a process that has served [n] requests has performed [n] more
    loads. No call writes the store: the persisted artifacts after any
    sequence of requests are those before it. *)
Theorem every_request_reloads_the_artifact (urls : list string) (w : World) :
  loads (trace (serve ip_address urls w))
    = (loads (trace w) + List.length urls)%nat
  /\ artifacts (serve ip_address urls w) = artifacts w.
Proof.
  split; [apply serve_trace | apply serve_artifacts].
Qed.

End PipelineClaims.

(** * The claims at concrete inputs *)

Lemma extract_features_schema_example :
  exists fv,
    extract_features lenient_ip_address "http://example.com/a.b?x=1" = inr fv
    /\ Dict.keys fv = schema
    /\ Pandas.f_columns (Pandas.from_dicts [fv]) = schema
    /\ forall urls fvs,
         urls <> [] ->
         map_result (extract_features lenient_ip_address) urls = inr fvs ->
         Pandas.f_columns (Pandas.from_dicts fvs) = schema.
Proof.
  eapply (extract_features_schema lenient_ip_address
            "http://example.com/a.b?x=1").
  vm_compute. reflexivity.
Defined.

Lemma extract_features_deterministic_example :
  UrlCache.get [] ("http://example.com", "", true) = None
  /\ UrlCache.get
       (after_calls lenient_ip_address
          ["http://example.com"; "https://bit.ly/abc123"] [])
       ("http://example.com", "", true)
     <> None
  /\ same_outcome
       (fst (extract_features_cached lenient_ip_address
               "http://example.com" []))
       (fst (extract_features_cached lenient_ip_address "http://example.com"
               (after_calls lenient_ip_address
                  ["http://example.com"; "https://bit.ly/abc123"] [])))
  /\ cache_consistent lenient_ip_address
       (snd (extract_features_cached lenient_ip_address
               "http://example.com" []))
  /\ same_outcome
       (fst (extract_features_cached lenient_ip_address
               "http://example.com" []))
       (fst (extract_features_cached lenient_ip_address "http://example.com"
               (snd (extract_features_cached lenient_ip_address
                       "http://example.com" [])))).
Proof.
  split; [reflexivity |]. split; [vm_compute; discriminate |].
  apply (extract_features_deterministic_across_calls lenient_ip_address
           "http://example.com" []
           (after_calls lenient_ip_address
              ["http://example.com"; "https://bit.ly/abc123"] [])).
  - intros url r H. discriminate H.
  - apply after_calls_consistent. intros url r H. discriminate H.
Defined.

Lemma num_subdomains_example :
  exists fv dots subdomains,
    extract_features lenient_ip_address "http://localhost/login" = inr fv
    /\ Dict.get fv "num_dots" = inr dots
    /\ Dict.get fv "num_subdomains" = inr subdomains
    /\ dots = PyStr.count "." "localhost"
    /\ subdomains = (dots - 1)%Z
    /\ (dots = 0%Z -> subdomains = (-1)%Z).
Proof.
  apply (num_subdomains_is_num_dots_minus_one lenient_ip_address
           "http://localhost/login"
           (UrlParse.mkParse "http" "localhost" "/login" "" "" "")).
  vm_compute. reflexivity.
Defined.

Lemma has_http_example :
  exists fv,
    extract_features lenient_ip_address "https://example.com" = inr fv
    /\ Dict.get fv "has_http" = inr 1%Z
    /\ Dict.get fv "has_malformed_url" = inr 1%Z.
Proof.
  eapply (has_http_implies_has_malformed_url lenient_ip_address
            "https://example.com").
  - vm_compute. reflexivity.
  - right. exists "", "example.com". reflexivity.
Defined.

Lemma empty_authority_example :
  exists fv,
    extract_features lenient_ip_address "example.com/path" = inr fv
    /\ Dict.get fv "domain_length" = inr 0%Z
    /\ Dict.get fv "num_dots" = inr 0%Z
    /\ Dict.get fv "num_hyphens" = inr 0%Z
    /\ Dict.get fv "num_subdomains" = inr (-1)%Z
    /\ Dict.get fv "has_ip_address" = inr 0%Z
    /\ Dict.get fv "is_shortened" = inr 0%Z
    /\ Dict.get fv "has_suspicious_tld" = inr 0%Z.
Proof.
  eapply (empty_authority_features lenient_ip_address "example.com/path").
  - vm_compute. reflexivity.
  - reflexivity.
Defined.

Lemma unbalanced_bracket_example :
  extract_features lenient_ip_address "http://[" = inl (ValueError "Invalid IPv6 URL")
  /\ forall (w : World) (m : TrainedModel),
       artifacts w "phishing_model.pkl" = Some m ->
       fst (predict_URL lenient_ip_address "http://[" w)
       = inl (ValueError "Invalid IPv6 URL").
Proof.
  apply (proj1 (proj2 (extract_features_fails_only_with_parser
                         lenient_ip_address))
           "http://[" (ValueError "Invalid IPv6 URL")).
  vm_compute. reflexivity.
Defined.

Lemma confidence_example :
  exists confidence : Q,
    fst (predict_URL lenient_ip_address "http://example.com" serving_world)
    = inr (1%Z, confidence)
    /\ (confidence == 100 * Qmax (1 # 4) (3 # 4))%Q
    /\ (50 <= confidence <= 100)%Q.
Proof.
  eapply (confidence_between_50_and_100 lenient_ip_address
            "http://example.com" serving_world sample_model).
  - reflexivity.
  - vm_compute. reflexivity.
  - vm_compute. reflexivity.
  - vm_compute. reflexivity.
  - unfold binary_distribution. repeat split; vm_compute; congruence.
Defined.

(** The empty string is not rejected: the extractor returns a vector and the
    predictor a label. *)
Lemma empty_url_is_not_rejected :
  ~ (exists e, extract_features lenient_ip_address "" = inl e)
  /\ ~ (exists e,
          fst (predict_URL lenient_ip_address "" serving_world) = inl e).
Proof.
  split; intros [e H]; vm_compute in H; discriminate.
Qed.

(** Two requests, two loads. *)
Lemma two_requests_load_twice :
  ~ (loads (trace (serve lenient_ip_address
                     ["http://example.com"; "https://bit.ly/abc123"]
                     serving_world)) <= 1)%nat.
Proof.
  vm_compute. lia.
Qed.

(** [soap.beep://example.com]: the first dot sits in the scheme, no ["//"]
    precedes it, and the authority is [example.com]. *)
Lemma dotted_scheme_has_authority :
  no_double_slash_before_first_dot "soap.beep://example.com" = true
  /\ exists fv,
       extract_features lenient_ip_address "soap.beep://example.com" = inr fv
       /\ Dict.get fv "domain_length" = inr 11%Z
       /\ Dict.get fv "num_dots" = inr 1%Z
       /\ Dict.get fv "num_subdomains" = inr 0%Z.
Proof.
  split; [reflexivity |].
  eexists. split; [vm_compute; reflexivity |]. repeat split; reflexivity.
Qed.

(** * Further properties of the code *)

(** ** Counting characters *)

Lemma count_if_app (f : ascii -> bool) (s t : string) :
  PyStr.count_if f (s ++ t) = (PyStr.count_if f s + PyStr.count_if f t)%Z.
Proof.
  induction s as [| c s IH]; simpl; [reflexivity |]. rewrite IH. lia.
Qed.

Lemma count_if_nonneg (f : ascii -> bool) (s : string) :
  (0 <= PyStr.count_if f s)%Z.
Proof.
  induction s as [| c s IH]; simpl; [lia |]. destruct (f c); lia.
Qed.

Lemma len_app (s t : string) : PyStr.len (s ++ t) = (PyStr.len s + PyStr.len t)%Z.
Proof.
  unfold PyStr.len. induction s as [| c s IH]; simpl String.length; [lia |].
  rewrite !Nat2Z.inj_succ. lia.
Qed.

Lemma len_nonneg (s : string) : (0 <= PyStr.len s)%Z.
Proof. unfold PyStr.len. lia. Qed.

(** Characters counted by two exclusive tests are at most all of them. *)
Lemma count_if_exclusive (f g : ascii -> bool) (s : string) :
  (forall c, f c = true -> g c = false) ->
  (PyStr.count_if f s + PyStr.count_if g s <= PyStr.len s)%Z.
Proof.
  intros Hfg. unfold PyStr.len.
  induction s as [| c s IH]; simpl PyStr.count_if; simpl String.length; [lia |].
  rewrite Nat2Z.inj_succ. specialize (Hfg c).
  destruct (f c); destruct (g c); try lia; discriminate Hfg; reflexivity.
Qed.

(** Three exclusive tests that all imply a fourth. *)
Lemma count_if_three_within (f1 f2 f3 g : ascii -> bool) (s : string) :
  (forall c, (b2z (f1 c) + b2z (f2 c) + b2z (f3 c) <= b2z (g c))%Z) ->
  (PyStr.count_if f1 s + PyStr.count_if f2 s + PyStr.count_if f3 s
   <= PyStr.count_if g s)%Z.
Proof.
  intros H. induction s as [| c s IH]; simpl; [lia |].
  specialize (H c). unfold b2z in H.
  destruct (f1 c); destruct (f2 c); destruct (f3 c); destruct (g c); lia.
Qed.

Lemma has_char_le_count (c : ascii) (s : string) :
  (b2z (PyStr.has_char c s) <= PyStr.count c s)%Z.
Proof.
  unfold PyStr.has_char, PyStr.count.
  induction s as [| a s IH]; cbn [PyStr.existsb PyStr.count_if];
    [unfold b2z; lia |].
  pose proof (count_if_nonneg (Ascii.eqb c) s).
  destruct (Ascii.eqb c a); cbn [orb]; [unfold b2z; lia | lia].
Qed.

Ltac each_character c :=
  destruct c as [[] [] [] [] [] [] [] []]; vm_compute; try reflexivity;
  try discriminate; try lia.

(** A digit is a word character, so it is never counted as special. *)
Lemma isdigit_is_word (c : ascii) :
  PyStr.isdigit c = true -> negb (Re.is_word c) = false.
Proof. each_character c. Qed.

(** [?], [%] and [@] are three different non-word characters. *)
Lemma marks_are_special (c : ascii) :
  (b2z (Ascii.eqb "?" c) + b2z (Ascii.eqb "%" c) + b2z (Ascii.eqb "@" c)
   <= b2z (negb (Re.is_word c)))%Z.
Proof. each_character c. Qed.

(** [re.findall] on a one-character class lists the characters of the
    class: as many matches as such characters. *)
Lemma findall_class_length (f : ascii -> bool) :
  forall (s : string) (fuel : nat) (prev : option ascii),
    (String.length s < fuel)%nat ->
    Z.of_nat (List.length (Re.findall_from fuel (Re.Cls f) prev s))
    = PyStr.count_if f s.
Proof.
  induction s as [| c s IH]; intros fuel prev Hfuel.
  - destruct fuel; reflexivity.
  - destruct fuel as [| fuel]; [simpl in Hfuel; lia |].
    simpl in Hfuel. assert (Hlt : (String.length s < fuel)%nat) by lia.
    cbn [Re.findall_from Re.match_at Re.exec PyStr.count_if String.length].
    destruct (f c).
    + replace (S (String.length s) - String.length s)%nat with 1%nat by lia.
      cbn [List.length]. rewrite Nat2Z.inj_succ, (IH fuel (Some c) Hlt). lia.
    + rewrite (IH fuel (Some c) Hlt). lia.
Qed.

Lemma findall_nonword (s : string) :
  Z.of_nat (List.length (Re.findall Re.pat_nonword s))
  = PyStr.count_if (fun c => negb (Re.is_word c)) s.
Proof.
  unfold Re.findall, Re.pat_nonword. apply findall_class_length. lia.
Qed.

(** ** What a successful match has consumed *)

Lemma append_assoc (a b c : string) : (a ++ b) ++ c = a ++ b ++ c.
Proof. induction a as [| x a IH]; simpl; [reflexivity | now rewrite IH]. Qed.

Lemma exec_sound {A : Type} (r : Re.regex) :
  forall (prev : option ascii) (s : string)
         (k : option ascii -> string -> option A) (a : A),
    Re.exec r prev s k = Some a ->
    exists w rest p, s = w ++ rest /\ lang r w /\ k p rest = Some a.
Proof.
  induction r as [| f | r1 IH1 r2 IH2 | r1 IH1 r2 IH2 |];
    intros prev s k a H; simpl in H.
  - exists "", s, prev. repeat split; assumption.
  - destruct s as [| c s]; [discriminate |].
    destruct (f c) eqn:Hc; [| discriminate].
    exists (String c ""), s, (Some c). repeat split; [| assumption].
    now exists c.
  - apply IH1 in H. destruct H as (w1 & rest1 & p1 & -> & L1 & H).
    apply IH2 in H. destruct H as (w2 & rest & p & -> & L2 & H).
    exists (w1 ++ w2), rest, p. split; [now rewrite append_assoc |].
    split; [| assumption]. now exists w1, w2.
  - destruct (Re.exec r1 prev s k) as [a' |] eqn:E.
    + injection H as ->. apply IH1 in E.
      destruct E as (w & rest & p & -> & L & E).
      exists w, rest, p. repeat split; [now left | assumption].
    + apply IH2 in H. destruct H as (w & rest & p & -> & L & H).
      exists w, rest, p. repeat split; [now right | assumption].
  - destruct (xorb _ _); [| discriminate].
    exists "", s, prev. repeat split; assumption.
Qed.

Lemma match_at_sound (r : Re.regex) (prev : option ascii) (s : string)
    (m : option ascii * string) :
  Re.match_at r prev s = Some m ->
  exists w, s = w ++ snd m /\ lang r w.
Proof.
  unfold Re.match_at. intros H. apply exec_sound in H.
  destruct H as (w & rest & p & -> & L & H). injection H as <-.
  now exists w.
Qed.

(** A successful search has found a word of the pattern inside the string. *)
Lemma search_from_sound (r : Re.regex) :
  forall (s : string) (prev : option ascii) (m : option ascii * string),
    Re.search_from r prev s = Some m ->
    exists pre w post, s = pre ++ w ++ post /\ lang r w.
Proof.
  induction s as [| c s IH]; intros prev m H; simpl in H.
  - destruct (Re.match_at r prev "") as [m' |] eqn:E; [| discriminate].
    apply match_at_sound in E. destruct E as (w & E & L).
    now exists "", w, (snd m').
  - destruct (Re.match_at r prev (String c s)) as [m' |] eqn:E.
    + apply match_at_sound in E. destruct E as (w & E & L).
      now exists "", w, (snd m').
    + apply IH in H. destruct H as (pre & w & post & -> & L).
      now exists (String c pre), w, post.
Qed.

Lemma lang_lit (w0 w : string) : lang (Re.lit w0) w -> w = w0.
Proof.
  revert w. induction w0 as [| c w0 IH]; intros w H; simpl in H.
  - exact H.
  - destruct H as (w1 & w2 & -> & (c' & -> & Hc) & H2).
    apply Ascii.eqb_eq in Hc. subst c'. simpl. f_equal. now apply IH.
Qed.

Lemma truthy_search_sound (r : Re.regex) (s : string) :
  Re.truthy (Re.search r s) = true ->
  exists pre w post, s = pre ++ w ++ post /\ lang r w.
Proof.
  unfold Re.search. destruct (Re.search_from r None s) as [m |] eqn:E;
    [| discriminate].
  intros _. exact (search_from_sound r s None m E).
Qed.

(** The protocol patterns are plain substring tests. *)
Lemma search_pat_http_iff (s : string) :
  Re.truthy (Re.search Re.pat_http s) = true
  <-> substring_of "http://" s \/ substring_of "https://" s.
Proof.
  split; [| apply search_pat_http].
  intros H. apply truthy_search_sound in H.
  destruct H as (pre & w & post & -> & [L | L]); apply lang_lit in L; subst w;
    [left | right]; now exists pre, post.
Qed.

Lemma search_pat_malformed_iff (s : string) :
  Re.truthy (Re.search Re.pat_malformed s) = true
  <-> substring_of "http:/" s \/ substring_of "https:/" s.
Proof.
  split; [| apply search_pat_malformed].
  intros H. apply truthy_search_sound in H.
  destruct H as (pre & w & post & -> & [L | L]); apply lang_lit in L; subst w;
    [left | right]; now exists pre, post.
Qed.

Lemma search_pat_shortener_iff (s : string) :
  Re.truthy (Re.search Re.pat_shortener s) = true
  <-> substring_of "bit.ly" s \/ substring_of "goo.gl" s
      \/ substring_of "t.co" s \/ substring_of "tinyurl.com" s.
Proof.
  split.
  - intros H. apply truthy_search_sound in H.
    destruct H as (pre & w & post & -> & [L | [L | [L | L]]]);
      apply lang_lit in L; subst w;
      [left | right; left | right; right; left | right; right; right];
      now exists pre, post.
  - intros [(pre & post & ->) | [(pre & post & ->) | [(pre & post & ->)
                                                     | (pre & post & ->)]]];
      apply truthy_search; intros p.
    + apply match_at_alt_l. apply (match_at_lit "bit.ly").
    + apply match_at_alt_r, match_at_alt_l. apply (match_at_lit "goo.gl").
    + apply match_at_alt_r, match_at_alt_r, match_at_alt_l.
      apply (match_at_lit "t.co").
    + apply match_at_alt_r, match_at_alt_r, match_at_alt_r.
      apply (match_at_lit "tinyurl.com").
Qed.

(** ** Words of the dotted-quad pattern *)

Lemma decimal_is_not_dot (c : ascii) :
  Re.is_decimal c = true -> Ascii.eqb "." c = false.
Proof. each_character c. Qed.

Lemma lang_decimal (w : string) :
  lang (Re.Cls Re.is_decimal) w -> PyStr.count "." w = 0%Z /\ PyStr.len w = 1%Z.
Proof.
  intros (c & -> & Hc). unfold PyStr.count. cbn [PyStr.count_if].
  rewrite (decimal_is_not_dot c Hc). split; reflexivity.
Qed.

Lemma lang_decimals (w : string) :
  lang (Re.rep_1_3 (Re.Cls Re.is_decimal)) w ->
  PyStr.count "." w = 0%Z /\ (1 <= PyStr.len w <= 3)%Z.
Proof.
  unfold Re.rep_1_3, Re.opt. cbn [lang].
  intros (w1 & w2 & -> & L1 & L2). apply lang_decimal in L1.
  destruct L1 as [C1 N1]. unfold PyStr.count in *.
  rewrite count_if_app, len_app, C1, N1.
  destruct L2 as [(w3 & w4 & -> & L3 & L4) | ->]; [| simpl; lia].
  apply lang_decimal in L3. destruct L3 as [C3 N3]. unfold PyStr.count in *.
  rewrite count_if_app, len_app, C3, N3.
  destruct L4 as [L4 | ->]; [| simpl; lia].
  apply lang_decimal in L4. destruct L4 as [C4 N4]. unfold PyStr.count in *.
  rewrite C4, N4. lia.
Qed.

Lemma lang_dot (w : string) :
  lang (Re.Chr ".") w -> PyStr.count "." w = 1%Z /\ PyStr.len w = 1%Z.
Proof.
  intros (c & -> & Hc). apply Ascii.eqb_eq in Hc. subst c. split; reflexivity.
Qed.

(** A word of the dotted-quad pattern has exactly three dots and between
    seven and fifteen characters. *)
Lemma lang_pat_ip (w : string) :
  lang Re.pat_ip w -> PyStr.count "." w = 3%Z /\ (7 <= PyStr.len w <= 15)%Z.
Proof.
  unfold Re.pat_ip. cbn zeta.
  intros (w0 & x1 & -> & -> & (d1 & x2 & -> & D1 & (p1 & x3 & -> & P1
          & (d2 & x4 & -> & D2 & (p2 & x5 & -> & P2
          & (d3 & x6 & -> & D3 & (p3 & x7 & -> & P3
          & (d4 & x8 & -> & D4 & ->)))))))).
  apply lang_decimals in D1, D2, D3, D4. apply lang_dot in P1, P2, P3.
  unfold PyStr.count in *.
  repeat rewrite ?count_if_app, ?len_app. simpl PyStr.count_if at 1.
  change (PyStr.len "") with 0%Z. change (PyStr.count_if (Ascii.eqb ".") "") with 0%Z.
  lia.
Qed.

(** ** Suffixes *)

Lemma append_empty_r (s : string) : s ++ "" = s.
Proof. induction s as [| c s IH]; simpl; [reflexivity | now rewrite IH]. Qed.

Lemma rev_onto_append (s acc : string) :
  PyStr.rev_onto s acc = PyStr.rev s ++ acc.
Proof.
  unfold PyStr.rev. revert acc.
  induction s as [| c s IH]; intros acc; simpl; [reflexivity |].
  rewrite (IH (String c acc)), (IH (String c "")), append_assoc. reflexivity.
Qed.

Lemma rev_append (a b : string) :
  PyStr.rev (a ++ b) = PyStr.rev b ++ PyStr.rev a.
Proof.
  induction a as [| c a IH]; simpl.
  - now rewrite append_empty_r.
  - unfold PyStr.rev at 1 3. simpl.
    rewrite !rev_onto_append, IH, append_assoc. reflexivity.
Qed.

Lemma rev_involutive (s : string) : PyStr.rev (PyStr.rev s) = s.
Proof.
  induction s as [| c s IH]; [reflexivity |].
  unfold PyStr.rev at 2. simpl. rewrite rev_onto_append, rev_append, IH.
  reflexivity.
Qed.

Lemma startswith_iff (p s : string) :
  PyStr.startswith p s = true <-> exists t, s = p ++ t.
Proof.
  unfold PyStr.startswith. revert s.
  induction p as [| c p IH]; intros s; simpl.
  - split; [intros _; now exists s | intros _; destruct s; reflexivity].
  - destruct s as [| a s]; simpl.
    + split; [discriminate | intros [t H]; discriminate].
    + destruct (ascii_dec c a) as [-> | Hne].
      * rewrite IH. split; intros [t H]; exists t; [now rewrite H |].
        now injection H.
      * split; [discriminate |]. intros [t H]. injection H as -> _.
        now contradiction Hne.
Qed.

(** [s.endswith(p)] holds exactly when [s] is some text followed by [p]. *)
Lemma endswith_iff (p s : string) :
  PyStr.endswith p s = true <-> suffix_of p s.
Proof.
  unfold PyStr.endswith, suffix_of. rewrite startswith_iff. split.
  - intros [t H]. exists (PyStr.rev t).
    rewrite <- (rev_involutive s), H, rev_append, rev_involutive. reflexivity.
  - intros [pre ->]. exists (PyStr.rev pre). apply rev_append.
Qed.

Lemma endswith_any_iff (ps : list string) (s : string) :
  PyStr.endswith_any ps s = true <-> exists p, In p ps /\ suffix_of p s.
Proof.
  unfold PyStr.endswith_any. rewrite List.existsb_exists.
  split; intros (p & Hin & H); exists p; (split; [assumption |]);
    now apply endswith_iff.
Qed.

(** ** Stripping a label that needs none *)

Lemma lstrip_clean (f : ascii -> bool) (s : string) :
  match Re.head s with
  | Some c => f c = false
  | None => True
  end ->
  PyStr.lstrip f s = s.
Proof. destruct s as [| c s]; simpl; [reflexivity | now intros ->]. Qed.

Lemma rstrip_clean (f : ascii -> bool) (s : string) :
  match last_char s with
  | Some c => f c = false
  | None => True
  end ->
  PyStr.rstrip f s = s.
Proof.
  induction s as [| c s IH]; [reflexivity |].
  intros H. cbn [PyStr.rstrip]. destruct s as [| c' s'].
  - simpl in *. now rewrite H.
  - rewrite IH by exact H. reflexivity.
Qed.

Lemma strip_trimmed (s : string) : is_trimmed s = true -> PyStr.strip s = s.
Proof.
  unfold is_trimmed, PyStr.strip. intros H.
  apply andb_true_iff in H. destruct H as [Hh Hl].
  apply negb_true_iff in Hh, Hl.
  rewrite (lstrip_clean PyStr.isspace s).
  - apply rstrip_clean. destruct (last_char s); [exact Hl | exact I].
  - destruct (Re.head s); [exact Hh | exact I].
Qed.

Lemma strip_idempotent (s : string) :
  PyStr.strip (PyStr.strip s) = PyStr.strip s.
Proof. apply strip_trimmed, strip_is_trimmed. Qed.

(** ** Lengths of the pieces of a string *)

Lemma length_take_drop (n : nat) (s : string) :
  (String.length (PyStr.take n s) + String.length (PyStr.drop n s)
   = String.length s)%nat.
Proof.
  revert s. induction n as [| n IH]; intros s.
  - destruct s; reflexivity.
  - destruct s as [| c s]; [reflexivity |]. simpl. now rewrite IH.
Qed.

Lemma length_take_le (n : nat) (s : string) :
  (String.length (PyStr.take n s) <= String.length s)%nat.
Proof. pose proof (length_take_drop n s). lia. Qed.

Lemma length_drop_le (n : nat) (s : string) :
  (String.length (PyStr.drop n s) <= String.length s)%nat.
Proof. pose proof (length_take_drop n s). lia. Qed.

Lemma length_lstrip_le (f : ascii -> bool) (s : string) :
  (String.length (PyStr.lstrip f s) <= String.length s)%nat.
Proof.
  induction s as [| c s IH]; simpl; [lia |]. destruct (f c); simpl; lia.
Qed.

Lemma length_remove_le (c : ascii) (s : string) :
  (String.length (PyStr.remove c s) <= String.length s)%nat.
Proof.
  induction s as [| a s IH]; simpl; [lia |].
  destruct (Ascii.eqb a c); simpl; lia.
Qed.

Lemma length_cleaned_le (url : string) :
  (String.length (cleaned url) <= String.length url)%nat.
Proof.
  unfold cleaned, UrlParse.remove_unsafe.
  repeat (etransitivity; [apply length_remove_le |]).
  apply length_lstrip_le.
Qed.

Lemma length_partition_le (c : ascii) (s : string) :
  (String.length (fst (fst (PyStr.partition c s))) <= String.length s)%nat.
Proof.
  unfold PyStr.partition. destruct (PyStr.find c s); simpl;
    [apply length_take_le | lia].
Qed.

Lemma length_splitparams_le (url : string) :
  (String.length (fst (UrlParse._splitparams url)) <= String.length url)%nat.
Proof.
  unfold UrlParse._splitparams.
  destruct (PyStr.has_char "/" url).
  - destruct (PyStr.rfind "/" url); [| simpl; lia].
    destruct (PyStr.find_from ";" _ url); simpl; [apply length_take_le | lia].
  - destruct (PyStr.find ";" url); simpl; apply length_take_le.
Qed.

(** ** The parser on the string it reads *)

Lemma head_remove (c : ascii) (s : string) :
  match Re.head s with
  | Some a => Ascii.eqb a c = false
  | None => True
  end ->
  Re.head (PyStr.remove c s) = Re.head s.
Proof. destruct s as [| a s]; simpl; [reflexivity | now intros ->]. Qed.

Lemma has_char_remove_same (c : ascii) (s : string) :
  PyStr.has_char c (PyStr.remove c s) = false.
Proof.
  unfold PyStr.has_char. induction s as [| a s IH]; simpl; [reflexivity |].
  destruct (Ascii.eqb a c) eqn:E; [exact IH |]. simpl.
  rewrite Ascii.eqb_sym, E. exact IH.
Qed.

Lemma c0_is_not_unsafe (a : ascii) :
  UrlParse.is_c0_control_or_space a = false ->
  Ascii.eqb a UrlParse.TAB = false /\ Ascii.eqb a UrlParse.CR = false
  /\ Ascii.eqb a UrlParse.LF = false.
Proof. each_character a; repeat split; reflexivity. Qed.

(** Reading twice changes nothing more. *)
Lemma cleaned_idempotent (url : string) : cleaned (cleaned url) = cleaned url.
Proof.
  assert (Hhead : match Re.head (cleaned url) with
                  | Some a => UrlParse.is_c0_control_or_space a = false
                  | None => True
                  end).
  { unfold cleaned, UrlParse.remove_unsafe.
    pose proof (lstrip_head UrlParse.is_c0_control_or_space url) as H.
    set (u := PyStr.lstrip _ url) in *.
    assert (H1 : Re.head (PyStr.remove UrlParse.TAB u) = Re.head u).
    { apply head_remove. destruct (Re.head u); [| exact I].
      now apply c0_is_not_unsafe. }
    assert (H2 : Re.head (PyStr.remove UrlParse.CR (PyStr.remove UrlParse.TAB u))
                 = Re.head u).
    { rewrite <- H1. apply head_remove. rewrite H1.
      destruct (Re.head u); [| exact I]. now apply c0_is_not_unsafe. }
    rewrite head_remove; rewrite H2; [exact H |].
    destruct (Re.head u); [| exact I]. now apply c0_is_not_unsafe. }
  unfold cleaned at 1.
  rewrite (lstrip_clean _ _ Hhead).
  unfold UrlParse.remove_unsafe.
  assert (Ht : PyStr.has_char UrlParse.TAB (cleaned url) = false).
  { unfold cleaned, UrlParse.remove_unsafe.
    do 2 apply has_char_remove. apply has_char_remove_same. }
  assert (Hc : PyStr.has_char UrlParse.CR (cleaned url) = false).
  { unfold cleaned, UrlParse.remove_unsafe.
    apply has_char_remove. apply has_char_remove_same. }
  assert (Hl : PyStr.has_char UrlParse.LF (cleaned url) = false).
  { unfold cleaned, UrlParse.remove_unsafe. apply has_char_remove_same. }
  now rewrite (remove_absent _ _ Ht), (remove_absent _ _ Hc),
    (remove_absent _ _ Hl).
Qed.

Section MoreParserProperties.

Variable ip_address : string -> option UrlParse.ip_version.

(** The parser sees only the cleaned string. *)
Lemma urlparse_cleaned (url : string) :
  UrlParse.urlparse ip_address (cleaned url) = UrlParse.urlparse ip_address url.
Proof.
  unfold UrlParse.urlparse, UrlParse.urlsplit. cbv zeta.
  change (UrlParse.remove_unsafe
            (PyStr.lstrip UrlParse.is_c0_control_or_space (cleaned url)))
    with (cleaned (cleaned url)).
  rewrite cleaned_idempotent. reflexivity.
Qed.

(** Authority and path are disjoint pieces of the string. *)
Lemma urlparse_lengths (url : string) (p : UrlParse.ParseResult) :
  UrlParse.urlparse ip_address url = inr p ->
  (String.length (UrlParse.netloc p) + String.length (UrlParse.path p)
   <= String.length url)%nat.
Proof.
  intros H. pose proof (length_cleaned_le url) as Hu.
  unfold UrlParse.urlparse, UrlParse.urlsplit in H. cbv zeta in H.
  change (UrlParse.remove_unsafe
            (PyStr.lstrip UrlParse.is_c0_control_or_space url))
    with (cleaned url) in H.
  set (u := cleaned url) in *.
  match type of H with
  | context [let '(scheme, url0) := ?X in _] => destruct X as [sch u3] eqn:Hs
  end.
  assert (H3 : (String.length u3 <= String.length u)%nat).
  { destruct (PyStr.find ":" u) as [[| i] |];
      try (injection Hs as <- <-; lia).
    destruct (_ && _); injection Hs as <- <-; [| lia].
    exact (length_drop_le (S (S i)) u). }
  assert (Hpath : forall (netloc rest : string) ,
             (String.length netloc + String.length rest <= String.length u3)%nat ->
             (splitresult <-
                (let '(url1, fragment) :=
                   if PyStr.has_char "#" rest
                   then let '(a, _, b) := PyStr.partition "#" rest in (a, b)
                   else (rest, "") in
                 let '(url2, query) :=
                   if PyStr.has_char "?" url1
                   then let '(a, _, b) := PyStr.partition "?" url1 in (a, b)
                   else (url1, "") in
                 UrlParse._checknetloc netloc ;;;
                 ret (UrlParse.mkSplit sch netloc url2 query fragment)) ;;
              (let '(UrlParse.mkSplit scheme netloc url0 query fragment) :=
                 splitresult in
               let '(url1, params) :=
                 if UrlParse.in_list scheme UrlParse.uses_params
                    && PyStr.has_char ";" url0
                 then UrlParse._splitparams url0
                 else (url0, "") in
               ret (UrlParse.mkParse scheme netloc url1 params query fragment)))
             = inr p ->
             (String.length (UrlParse.netloc p) + String.length (UrlParse.path p)
              <= String.length url)%nat).
  { intros netloc rest Hlen Hp.
    pose proof (length_partition_le "#" rest) as Hf.
    destruct (PyStr.partition "#" rest) as [[a1 f1] b1]. simpl in Hf.
    assert (exists u4 frag,
               (if PyStr.has_char "#" rest then (a1, b1) else (rest, ""))
               = (u4, frag)
               /\ (String.length u4 <= String.length rest)%nat) as (u4 & frag & E4 & L4).
    { destruct (PyStr.has_char "#" rest); do 2 eexists; split;
        try reflexivity; lia. }
    rewrite E4 in Hp. clear E4.
    pose proof (length_partition_le "?" u4) as Hq.
    destruct (PyStr.partition "?" u4) as [[a2 f2] b2]. simpl in Hq.
    assert (exists u5 q,
               (if PyStr.has_char "?" u4 then (a2, b2) else (u4, ""))
               = (u5, q)
               /\ (String.length u5 <= String.length u4)%nat) as (u5 & q & E5 & L5).
    { destruct (PyStr.has_char "?" u4); do 2 eexists; split;
        try reflexivity; lia. }
    rewrite E5 in Hp. clear E5.
    unfold UrlParse._checknetloc in Hp.
    assert (E : (if PyStr.is_empty netloc || PyStr.forallb PyStr.isascii netloc
                 then ret tt else ret tt) = inr tt)
      by (destruct (_ || _); reflexivity).
    rewrite E in Hp. cbn [bind ret] in Hp.
    pose proof (length_splitparams_le u5) as Hsp.
    destruct (UrlParse._splitparams u5) as [a3 b3]. simpl in Hsp.
    destruct (_ && _); injection Hp as <-; cbn [UrlParse.netloc UrlParse.path];
      lia. }
  destruct (PyStr.startswith "//" u3).
  - unfold UrlParse._splitnetloc in H.
    set (delim := List.fold_left _ _ _) in H.
    set (netloc := PyStr.drop 2 (PyStr.take delim u3)) in *.
    set (rest := PyStr.drop delim u3) in *.
    assert (Hlen : (String.length netloc + String.length rest
                    <= String.length u3)%nat).
    { pose proof (length_take_drop delim u3).
      pose proof (length_drop_le 2 (PyStr.take delim u3)).
      subst netloc rest. lia. }
    destruct (_ || _); [discriminate |].
    destruct (if _ && _ then _ else _) as [e | []]; [discriminate |].
    cbn [bind ret] in H. exact (Hpath netloc rest Hlen H).
  - cbn [bind ret] in H. apply (Hpath "" u3); [simpl; lia | exact H].
Qed.

End MoreParserProperties.

(** ** Relations between the features of one vector *)

Lemma flag_is_one (b : bool) : (inr (b2z b) : result Z) = inr 1%Z <-> b = true.
Proof.
  destruct b; simpl; split; intros H; try reflexivity; discriminate.
Qed.

Ltac read_features :=
  cbn [Dict.get String.eqb Ascii.eqb Bool.eqb ret].

Section FeatureRelations.

Variable ip_address : string -> option UrlParse.ip_version.

Local Abbreviation extract := (extract_features ip_address).
Local Abbreviation parse := (UrlParse.urlparse ip_address).

(** X1. Digits and special characters are distinct characters of the URL, and
    every [?], [%] and [@] is a special character. *)
Theorem character_counts_within_url (URL : string) (p : UrlParse.ParseResult) :
  parse URL = inr p ->
  exists fv len digits special params encoded at_flag,
    extract URL = inr fv
    /\ Dict.get fv "url_length" = inr len
    /\ Dict.get fv "num_digits" = inr digits
    /\ Dict.get fv "num_special_chars" = inr special
    /\ Dict.get fv "num_params" = inr params
    /\ Dict.get fv "num_encoded_chars" = inr encoded
    /\ Dict.get fv "has_at_symbol" = inr at_flag
    /\ (0 <= digits /\ 0 <= special /\ digits + special <= len)%Z
    /\ (0 <= params /\ 0 <= encoded /\ 0 <= at_flag
        /\ params + encoded + at_flag <= special)%Z.
Proof.
  intros Hp. do 7 eexists.
  split; [exact (extract_features_parsed _ _ _ Hp) |].
  read_features. do 6 (split; [reflexivity |]).
  rewrite findall_nonword.
  pose proof (count_if_nonneg PyStr.isdigit URL).
  pose proof (count_if_nonneg (fun c => negb (Re.is_word c)) URL).
  pose proof (count_if_exclusive PyStr.isdigit _ URL isdigit_is_word).
  pose proof (count_if_three_within (Ascii.eqb "?") (Ascii.eqb "%")
                (Ascii.eqb "@") _ URL marks_are_special).
  pose proof (count_if_nonneg (Ascii.eqb "?") URL).
  pose proof (count_if_nonneg (Ascii.eqb "%") URL).
  pose proof (count_if_nonneg (Ascii.eqb "@") URL).
  pose proof (has_char_le_count "@" URL).
  unfold PyStr.count in *.
  assert (0 <= b2z (PyStr.has_char "@" URL))%Z
    by (destruct (PyStr.has_char "@" URL); simpl; lia).
  repeat split; lia.
Qed.

(** X2. The domain and the path are disjoint pieces of the URL, and the dots
    and hyphens of the domain are distinct characters of it. *)
Theorem domain_and_path_within_url (URL : string) (p : UrlParse.ParseResult) :
  parse URL = inr p ->
  exists fv len domain_len path_len dots hyphens,
    extract URL = inr fv
    /\ Dict.get fv "url_length" = inr len
    /\ Dict.get fv "domain_length" = inr domain_len
    /\ Dict.get fv "path_length" = inr path_len
    /\ Dict.get fv "num_dots" = inr dots
    /\ Dict.get fv "num_hyphens" = inr hyphens
    /\ (0 <= domain_len /\ 0 <= path_len /\ domain_len + path_len <= len)%Z
    /\ (0 <= dots /\ 0 <= hyphens /\ dots + hyphens <= domain_len)%Z.
Proof.
  intros Hp. do 6 eexists.
  split; [exact (extract_features_parsed _ _ _ Hp) |].
  read_features. do 5 (split; [reflexivity |]).
  pose proof (urlparse_lengths ip_address URL p Hp) as Hlen.
  pose proof (count_if_nonneg (Ascii.eqb ".") (UrlParse.netloc p)).
  pose proof (count_if_nonneg (Ascii.eqb "-") (UrlParse.netloc p)).
  assert (Hex : forall c, Ascii.eqb "." c = true -> Ascii.eqb "-" c = false).
  { intros c Hc. apply Ascii.eqb_eq in Hc. subst c. reflexivity. }
  pose proof (count_if_exclusive _ _ (UrlParse.netloc p) Hex).
  unfold PyStr.count, PyStr.len in *. repeat split; lia.
Qed.

(** X3. The address flag is raised only on a domain with at least three dots
    and seven characters. *)
Theorem ip_flag_needs_three_dots (URL : string) (fv : Dict.t) :
  extract URL = inr fv ->
  Dict.get fv "has_ip_address" = inr 1%Z ->
  exists dots subdomains domain_len,
    Dict.get fv "num_dots" = inr dots
    /\ Dict.get fv "num_subdomains" = inr subdomains
    /\ Dict.get fv "domain_length" = inr domain_len
    /\ (3 <= dots /\ 2 <= subdomains /\ 7 <= domain_len)%Z.
Proof.
  intros He Hflag. destruct (extract_features_inv _ _ _ He) as [p Hp].
  rewrite (extract_features_parsed _ _ _ Hp) in He. injection He as <-.
  revert Hflag. read_features. intros Hflag.
  apply flag_is_one, truthy_search_sound in Hflag.
  destruct Hflag as (pre & w & post & E & L).
  apply lang_pat_ip in L. destruct L as [Hdots Hlen].
  do 3 eexists. do 3 (split; [reflexivity |]).
  rewrite E. unfold PyStr.count in *.
  rewrite !count_if_app, !len_app, Hdots.
  pose proof (count_if_nonneg (Ascii.eqb ".") pre).
  pose proof (count_if_nonneg (Ascii.eqb ".") post).
  pose proof (len_nonneg pre). pose proof (len_nonneg post).
  repeat split; lia.
Qed.

(** X4. The shortener flag is a substring test on the domain: it is raised
    exactly when one of the four names occurs anywhere in it. *)
Theorem shortener_flag_is_a_substring_test
    (URL : string) (p : UrlParse.ParseResult) (fv : Dict.t) :
  parse URL = inr p ->
  extract URL = inr fv ->
  (Dict.get fv "is_shortened" = inr 1%Z
   <-> substring_of "bit.ly" (UrlParse.netloc p)
       \/ substring_of "goo.gl" (UrlParse.netloc p)
       \/ substring_of "t.co" (UrlParse.netloc p)
       \/ substring_of "tinyurl.com" (UrlParse.netloc p)).
Proof.
  intros Hp He. rewrite (extract_features_parsed _ _ _ Hp) in He.
  injection He as <-. read_features.
  rewrite flag_is_one. apply search_pat_shortener_iff.
Qed.

(** X5. The protocol flags are substring and prefix tests on the raw URL. *)
Theorem protocol_flags_are_substring_tests (URL : string) (fv : Dict.t) :
  extract URL = inr fv ->
  (Dict.get fv "has_http" = inr 1%Z
   <-> substring_of "http://" URL \/ substring_of "https://" URL)
  /\ (Dict.get fv "has_malformed_url" = inr 1%Z
      <-> substring_of "http:/" URL \/ substring_of "https:/" URL)
  /\ (Dict.get fv "has_https" = inr 1%Z <-> exists t, URL = "https" ++ t).
Proof.
  intros He. destruct (extract_features_inv _ _ _ He) as [p Hp].
  rewrite (extract_features_parsed _ _ _ Hp) in He. injection He as <-.
  read_features. rewrite !flag_is_one.
  split; [apply search_pat_http_iff |].
  split; [apply search_pat_malformed_iff | apply startswith_iff].
Qed.

(** X6. The TLD flag is a suffix test on the whole authority; a flagged domain
    has a dot. *)
Theorem tld_flag_is_a_suffix_test
    (URL : string) (p : UrlParse.ParseResult) (fv : Dict.t) :
  parse URL = inr p ->
  extract URL = inr fv ->
  (Dict.get fv "has_suspicious_tld" = inr 1%Z
   <-> exists tld, In tld suspicious_tlds /\ suffix_of tld (UrlParse.netloc p))
  /\ (Dict.get fv "has_suspicious_tld" = inr 1%Z ->
      exists dots, Dict.get fv "num_dots" = inr dots /\ (1 <= dots)%Z).
Proof.
  intros Hp He. rewrite (extract_features_parsed _ _ _ Hp) in He.
  injection He as <-. read_features. rewrite flag_is_one.
  split; [exact (endswith_any_iff suspicious_tlds (UrlParse.netloc p)) |].
  intros H. apply (endswith_any_iff suspicious_tlds (UrlParse.netloc p)) in H.
  destruct H as (tld & Hin & pre & E).
  eexists. split; [reflexivity |]. rewrite E.
  unfold PyStr.count. rewrite count_if_app.
  pose proof (count_if_nonneg (Ascii.eqb ".") pre).
  simpl in Hin.
  destruct Hin as [<- | [<- | [<- | [<- | [<- | []]]]]]; simpl; lia.
Qed.

(** X7. Leading control characters and blanks, and tab, carriage return and
    line feed anywhere, do not change the features computed from the
    parsed URL. *)
Theorem parsed_features_ignore_cleaning (URL : string) (fv : Dict.t) :
  extract URL = inr fv ->
  exists fv',
    extract (cleaned URL) = inr fv'
    /\ forall name, In name parsed_features ->
                    Dict.get fv' name = Dict.get fv name.
Proof.
  intros He. destruct (extract_features_inv _ _ _ He) as [p Hp].
  rewrite (extract_features_parsed _ _ _ Hp) in He. injection He as <-.
  pose proof (urlparse_cleaned ip_address URL) as Hc. rewrite Hp in Hc.
  eexists. split; [exact (extract_features_parsed _ _ _ Hc) |].
  intros name Hin. simpl in Hin.
  repeat (destruct Hin as [<- | Hin]; [reflexivity |]). destruct Hin.
Qed.

End FeatureRelations.

(** ** The training scripts and the predictor *)


Lemma position_none (name : string) (cols : list string) :
  Pandas.position name cols = None <-> ~ In name cols.
Proof.
  induction cols as [| c cols IH]; simpl.
  - split; [intros _ [] | reflexivity].
  - destruct (String.eqb c name) eqn:E.
    + apply String.eqb_eq in E. split; [discriminate | intros H].
      exfalso. apply H. now left.
    + apply String.eqb_neq in E.
      destruct (Pandas.position name cols); simpl.
      * split; [discriminate |]. intros H. exfalso.
        assert (Hn : ~ In name cols) by (intros Hin; apply H; now right).
        apply IH in Hn. discriminate.
      * split; [| reflexivity]. intros _ [H | H]; [congruence |].
        now apply (proj1 IH).
Qed.

(** A frame whose labels need no stripping is left as it is, and stripping
    twice is stripping once. *)
Lemma strip_columns_clean (data : Pandas.DataFrame) :
  Forall (fun c => is_trimmed c = true) (Pandas.columns data) ->
  Pandas.strip_columns data = data.
Proof.
  destruct data as [cols rows]. unfold Pandas.strip_columns.
  cbn [Pandas.columns Pandas.rows]. intros H. f_equal.
  induction H as [| c cs Hc _ IH]; simpl; [reflexivity |].
  now rewrite (strip_trimmed c Hc), IH.
Qed.

Lemma max_from_ge_start (xs : list Q) (m : Q) : (m <= max_from m xs)%Q.
Proof.
  revert m. induction xs as [| x xs IH]; intros m; simpl; [apply Qle_refl |].
  destruct (Qle_bool x m) eqn:E; [apply IH |].
  apply Qle_trans with x; [| apply IH].
  destruct (Qlt_le_dec m x) as [H | H]; [now apply Qlt_le_weak |].
  apply Qle_bool_iff in H. congruence.
Qed.

Lemma max_from_upper (xs : list Q) (m : Q) :
  forall x, In x xs -> (x <= max_from m xs)%Q.
Proof.
  revert m. induction xs as [| a xs IH]; intros m x Hin; [destruct Hin |].
  simpl. destruct Hin as [-> | Hin]; [| now apply IH].
  destruct (Qle_bool x m) eqn:E.
  - apply Qle_bool_iff in E. apply Qle_trans with m; [exact E |].
    apply max_from_ge_start.
  - apply max_from_ge_start.
Qed.

Lemma max_from_member (xs : list Q) (m : Q) :
  max_from m xs = m \/ In (max_from m xs) xs.
Proof.
  revert m. induction xs as [| a xs IH]; intros m; simpl; [now left |].
  destruct (Qle_bool a m).
  - destruct (IH m) as [H | H]; [now left | right; now right].
  - destruct (IH a) as [H | H]; right; [left; now rewrite H | now right].
Qed.

Section ScriptProperties.

Variable ip_address : string -> option UrlParse.ip_version.
Variable split_and_fit :
  classifier -> Pandas.FeatureFrame -> list string -> result TrainedModel.

Local Abbreviation extract := (extract_features ip_address).
Local Abbreviation parse := (UrlParse.urlparse ip_address).
Local Abbreviation train_gb := (model_py ip_address split_and_fit).
Local Abbreviation train_rf := (model_checkpoint_py ip_address split_and_fit).
Local Abbreviation predict_url := (predict_URL ip_address).
Local Abbreviation predict_label := (predict_URL_checkpoint ip_address).

Ltac run_script :=
  unfold model_py, model_checkpoint_py, predict_URL, predict_URL_checkpoint,
    analyze, analyze_request, io_bind, read_csv, joblib_load, joblib_dump,
    lift, io_ret.

(** X8. A training run that fails, at whatever stage, has written nothing: no
    artifact and no access to the store. *)
Theorem failed_training_writes_nothing (w : World) (e : exn) :
  (fst (train_gb w) = inl e -> snd (train_gb w) = w)
  /\ (fst (train_rf w) = inl e -> snd (train_rf w) = w).
Proof.
  split; run_script;
    (destruct (dataset_csv w) as [data |]; [| reflexivity]);
    (destruct (Pandas.getitem _ "URL") as [e1 | urls]; [reflexivity |]);
    (destruct (map_result extract urls) as [e2 | fvs]; [reflexivity |]);
    (destruct (Pandas.getitem _ "Label") as [e3 | y]; [reflexivity |]);
    (destruct (split_and_fit _ _ y) as [e4 | m]; [reflexivity |]);
    simpl; discriminate.
Qed.


(** X10. Round trip inside [model-checkpoint.py]: after a successful run the
    artifact under [phishing_model.pkl] is the fitted model, whatever was
    stored there before, the other artifacts are untouched, and the script's
    [predict_URL] answers with that model's label for the URL's row. *)
Theorem checkpoint_training_then_prediction
    (w : World) (data : Pandas.DataFrame) (urls y : list string)
    (fvs : list Dict.t) (m : TrainedModel) :
  dataset_csv w = Some data ->
  Pandas.getitem (Pandas.strip_columns data) "URL" = inr urls ->
  map_result extract urls = inr fvs ->
  Pandas.getitem (Pandas.strip_columns data) "Label" = inr y ->
  split_and_fit RandomForestClassifier (Pandas.from_dicts fvs) y = inr m ->
  fst (train_rf w) = inr tt
  /\ trace (snd (train_rf w)) = (trace w ++ [Dump "phishing_model.pkl"])%list
  /\ artifacts (snd (train_rf w)) "phishing_model.pkl" = Some m
  /\ (forall path, path <> "phishing_model.pkl" ->
                   artifacts (snd (train_rf w)) path = artifacts w path)
  /\ forall URL fv,
       extract URL = inr fv ->
       fst (predict_label URL (snd (train_rf w)))
       = index0 (predict m (Pandas.from_dicts [fv])).
Proof.
  intros Hd Hu Hm Hy Hf.
  assert (E : train_rf w =
              (inr tt,
               mkWorld (Some data)
                 (fun p => if String.eqb p "phishing_model.pkl"
                           then Some m else artifacts w p)
                 (trace w ++ [Dump "phishing_model.pkl"])%list)).
  { run_script. rewrite Hd, Hu, Hm, Hy, Hf. cbn beta iota.
    rewrite ?Hd. reflexivity. }
  rewrite E. cbn [fst snd trace artifacts].
  split; [reflexivity |]. split; [reflexivity |]. split; [reflexivity |].
  split.
  - intros path Hne. apply String.eqb_neq in Hne. now rewrite Hne.
  - intros URL fv He. run_script. cbn [artifacts String.eqb Ascii.eqb Bool.eqb].
    rewrite He. destruct (index0 _); reflexivity.
Qed.

(** X11. The training frame has one row per URL, in order, holding the values of
    that URL's dict with no missing entry; it is the row the predictor
    builds for the same URL. *)
Theorem training_rows_are_prediction_rows
    (urls : list string) (fvs : list Dict.t) :
  urls <> [] ->
  map_result extract urls = inr fvs ->
  Pandas.f_rows (Pandas.from_dicts fvs)
  = List.map (fun fv => List.map Some (Dict.values fv)) fvs
  /\ List.length (Pandas.f_rows (Pandas.from_dicts fvs)) = List.length urls
  /\ forall fv, In fv fvs ->
       Pandas.f_rows (Pandas.from_dicts [fv])
       = [List.map Some (Dict.values fv)].
Proof.
  intros Hne Hm.
  assert (Hshape : forall fv, In fv fvs ->
             List.map (Pandas.lookup fv) schema
             = List.map Some (Dict.values fv)
             /\ Dict.keys fv = schema).
  { pose proof (map_result_Forall extract
                  (fun fv => List.map (Pandas.lookup fv) schema
                             = List.map Some (Dict.values fv)
                             /\ Dict.keys fv = schema)) as HF.
    intros fv Hin. refine (proj1 (List.Forall_forall _ _) (HF _ urls fvs Hm) fv Hin).
    intros u d Hd. destruct (extract_features_inv _ _ _ Hd) as [p Hp].
    rewrite (extract_features_parsed _ _ _ Hp) in Hd. injection Hd as <-.
    split; reflexivity. }
  assert (Hcols : Pandas.f_columns (Pandas.from_dicts fvs) = schema).
  { apply from_dicts_columns.
    - intros ->. apply map_result_length in Hm. destruct urls; [congruence |].
      discriminate.
    - apply List.Forall_forall. intros fv Hin. apply (Hshape fv Hin). }
  assert (Hrows : Pandas.f_rows (Pandas.from_dicts fvs)
                  = List.map (fun fv => List.map Some (Dict.values fv)) fvs).
  { unfold Pandas.from_dicts in *. cbn [Pandas.f_rows Pandas.f_columns] in *.
    rewrite Hcols. apply List.map_ext_in. intros fv Hin.
    apply (Hshape fv Hin). }
  split; [exact Hrows |]. split.
  - rewrite Hrows, List.length_map. now apply map_result_length in Hm.
  - intros fv Hin. destruct (Hshape fv Hin) as [Hrow Hkeys].
    unfold Pandas.from_dicts. cbn [Pandas.f_rows List.fold_left List.map].
    rewrite (add_keys_first fv Hkeys), Hrow. reflexivity.
Qed.

(** X12. Without the artifact the predictor raises [FileNotFoundError] whatever
    the URL, even one the parser would reject: the load comes first. *)
Theorem predict_URL_without_artifact (URL : string) (w : World) :
  artifacts w "phishing_model.pkl" = None ->
  fst (predict_url URL w) = inl (FileNotFoundError "phishing_model.pkl")
  /\ fst (predict_label URL w) = inl (FileNotFoundError "phishing_model.pkl").
Proof.
  intros H. run_script. rewrite H. split; reflexivity.
Qed.

(** X13. Whatever the number of classes, a returned confidence is 100 times one
    of the row's probabilities, and no probability of the row exceeds it. *)
Theorem confidence_is_the_largest_probability
    (URL : string) (w : World) (label : Z) (confidence : Q) :
  fst (predict_url URL w) = inr (label, confidence) ->
  exists m fv proba probas best,
    artifacts w "phishing_model.pkl" = Some m
    /\ extract URL = inr fv
    /\ predict_proba m (Pandas.from_dicts [fv]) = proba :: probas
    /\ In best proba
    /\ confidence = (best * 100)%Q
    /\ forall x, In x proba -> (x * 100 <= confidence)%Q.
Proof.
  run_script.
  destruct (artifacts w "phishing_model.pkl") as [m |]; [| discriminate].
  destruct (extract URL) as [e | fv]; [discriminate |]. cbn beta iota zeta.
  destruct (predict m _) as [| l ls]; [discriminate |]. cbn [index0 ret].
  destruct (predict_proba m _) as [| proba probas] eqn:Hp; [discriminate |].
  cbn [index0 ret].
  destruct proba as [| x0 xs]; [discriminate |]. cbn [py_max ret bind fst].
  intros H. injection H as <- <-.
  exists m, fv, (x0 :: xs), probas, (max_from x0 xs).
  do 2 (split; [reflexivity |]). split; [exact Hp |].
  split; [| split; [reflexivity |]].
  - destruct (max_from_member xs x0) as [E | H]; [left; now rewrite E | now right].
  - intros x [<- | Hin]; apply Qmult_le_compat_r; try discriminate.
    + apply max_from_ge_start.
    + now apply max_from_upper.
Qed.

(** X14. The two [predict_URL] agree: when [app.py]'s returns a label and a
    confidence, [model-checkpoint.py]'s returns that label, and both leave
    the same process environment. *)
Theorem predict_URL_variants_agree
    (URL : string) (w : World) (label : Z) (confidence : Q) :
  fst (predict_url URL w) = inr (label, confidence) ->
  fst (predict_label URL w) = inr label
  /\ snd (predict_label URL w) = snd (predict_url URL w).
Proof.
  run_script.
  destruct (artifacts w "phishing_model.pkl") as [m |]; [| discriminate].
  destruct (extract URL) as [e | fv]; [discriminate |]. cbn beta iota zeta.
  destruct (index0 (predict m _)) as [e | l]; [discriminate |].
  destruct (index0 (predict_proba m _)) as [e | proba]; [discriminate |].
  destruct (py_max proba) as [e | mx]; [discriminate |]. cbn [bind ret fst snd].
  intros H. injection H as <- _. split; reflexivity.
Qed.

(** X15. The route's verdict: label [1] is shown as [False], every other label
    as [True], with the predictor's confidence; a failure of the predictor is
    the route's failure, and a request without the [URL] field fails before
    the artifact store is touched. *)
Theorem analyze_verdict (URL : string) (w : World) :
  (forall label confidence,
      fst (predict_url URL w) = inr (label, confidence) ->
      fst (analyze ip_address URL w)
      = inr (negb (label =? 1)%Z, confidence))
  /\ (forall e, fst (predict_url URL w) = inl e ->
                fst (analyze ip_address URL w) = inl e)
  /\ snd (analyze ip_address URL w) = snd (predict_url URL w)
  /\ forall form,
       (forall v, ~ In ("URL", v) form) ->
       analyze_request ip_address form w = (inl (KeyError "URL"), w).
Proof.
  split; [| split; [| split]].
  - intros label confidence H. unfold analyze, io_bind, io_ret.
    destruct (predict_url URL w) as [[e | [l c]] w']; [discriminate |].
    simpl in H. injection H as -> ->. cbn [fst].
    destruct (label =? 1)%Z; reflexivity.
  - intros e H. unfold analyze, io_bind.
    destruct (predict_url URL w) as [[e' | r] w']; [| discriminate].
    simpl in H. injection H as ->. reflexivity.
  - unfold analyze, io_bind, io_ret.
    destruct (predict_url URL w) as [[e' | [l c]] w']; reflexivity.
  - intros form Hform. unfold analyze_request, io_bind, lift.
    assert (E : form_get form "URL" = inl (KeyError "URL")).
    { induction form as [| [k v] form IH]; simpl; [reflexivity |].
      destruct (String.eqb k "URL") eqn:Ek.
      - apply String.eqb_eq in Ek. subst k. exfalso.
        apply (Hform v). now left.
      - apply IH. intros v' Hin. apply (Hform v'). now right. }
    now rewrite E.
Qed.

(** X16. A dataset without a [URL] column stops either script with
    [KeyError: 'URL'] before anything else happens; [model.py] looks for the
    label as read, [model-checkpoint.py] for a label that strips to it. *)
Theorem missing_url_column_is_a_key_error (w : World) (data : Pandas.DataFrame) :
  dataset_csv w = Some data ->
  (~ In "URL" (Pandas.columns data) ->
   train_gb w = (inl (KeyError "URL"), w))
  /\ (~ In "URL" (List.map PyStr.strip (Pandas.columns data)) ->
      train_rf w = (inl (KeyError "URL"), w)).
Proof.
  intros Hd. split; intros Hno; run_script; rewrite Hd;
    unfold Pandas.getitem, Pandas.strip_columns; cbn [Pandas.columns];
    apply position_none in Hno; rewrite Hno; reflexivity.
Qed.

(** X17. Stripping the labels twice is stripping them once, and on a frame whose
    labels have no surrounding whitespace it changes nothing: there
    [model-checkpoint.py] reads every column exactly as [model.py] does. *)
Theorem clean_labels_need_no_stripping (data : Pandas.DataFrame) :
  Pandas.strip_columns (Pandas.strip_columns data) = Pandas.strip_columns data
  /\ (Forall (fun c => is_trimmed c = true) (Pandas.columns data) ->
      Pandas.strip_columns data = data
      /\ forall name,
           Pandas.getitem (Pandas.strip_columns data) name
           = Pandas.getitem data name).
Proof.
  split.
  - apply strip_columns_clean, strip_columns_trimmed.
  - intros H. rewrite (strip_columns_clean data H). split; reflexivity.
Qed.

End ScriptProperties.

(** ** The further properties at concrete inputs *)

Lemma character_counts_example :
  exists fv len digits special params encoded at_flag,
    extract_features lenient_ip_address "http://user@example.com/a1?b=2%20"
    = inr fv
    /\ Dict.get fv "url_length" = inr len
    /\ Dict.get fv "num_digits" = inr digits
    /\ Dict.get fv "num_special_chars" = inr special
    /\ Dict.get fv "num_params" = inr params
    /\ Dict.get fv "num_encoded_chars" = inr encoded
    /\ Dict.get fv "has_at_symbol" = inr at_flag
    /\ (0 <= digits /\ 0 <= special /\ digits + special <= len)%Z
    /\ (0 <= params /\ 0 <= encoded /\ 0 <= at_flag
        /\ params + encoded + at_flag <= special)%Z.
Proof.
  eapply (character_counts_within_url lenient_ip_address
            "http://user@example.com/a1?b=2%20").
  vm_compute. reflexivity.
Defined.

Lemma domain_and_path_example :
  exists fv len domain_len path_len dots hyphens,
    extract_features lenient_ip_address "http://my-site.example.com/a/b?c#d"
    = inr fv
    /\ Dict.get fv "url_length" = inr len
    /\ Dict.get fv "domain_length" = inr domain_len
    /\ Dict.get fv "path_length" = inr path_len
    /\ Dict.get fv "num_dots" = inr dots
    /\ Dict.get fv "num_hyphens" = inr hyphens
    /\ (0 <= domain_len /\ 0 <= path_len /\ domain_len + path_len <= len)%Z
    /\ (0 <= dots /\ 0 <= hyphens /\ dots + hyphens <= domain_len)%Z.
Proof.
  eapply (domain_and_path_within_url lenient_ip_address
            "http://my-site.example.com/a/b?c#d").
  vm_compute. reflexivity.
Defined.

Lemma ip_flag_example :
  match extract_features lenient_ip_address "http://192.168.0.1/login" with
  | inr fv =>
      exists dots subdomains domain_len,
        Dict.get fv "num_dots" = inr dots
        /\ Dict.get fv "num_subdomains" = inr subdomains
        /\ Dict.get fv "domain_length" = inr domain_len
        /\ (3 <= dots /\ 2 <= subdomains /\ 7 <= domain_len)%Z
  | inl _ => False
  end.
Proof.
  destruct (extract_features lenient_ip_address "http://192.168.0.1/login")
    as [e | fv] eqn:E.
  - vm_compute in E. discriminate.
  - apply (ip_flag_needs_three_dots lenient_ip_address
             "http://192.168.0.1/login" fv E).
    vm_compute in E. injection E as <-. reflexivity.
Defined.

Lemma shortener_flag_example :
  match extract_features lenient_ip_address "http://microsoft.com/" with
  | inr fv =>
      Dict.get fv "is_shortened" = inr 1%Z
      <-> substring_of "bit.ly" "microsoft.com"
          \/ substring_of "goo.gl" "microsoft.com"
          \/ substring_of "t.co" "microsoft.com"
          \/ substring_of "tinyurl.com" "microsoft.com"
  | inl _ => False
  end.
Proof.
  destruct (extract_features lenient_ip_address "http://microsoft.com/")
    as [e | fv] eqn:E.
  - vm_compute in E. discriminate.
  - apply (shortener_flag_is_a_substring_test lenient_ip_address
             "http://microsoft.com/"
             (UrlParse.mkParse "http" "microsoft.com" "/" "" "" "") fv);
      [vm_compute; reflexivity | exact E].
Defined.

Lemma protocol_flags_example :
  match extract_features lenient_ip_address "https.example.com/http:/x" with
  | inr fv =>
      (Dict.get fv "has_http" = inr 1%Z
       <-> substring_of "http://" "https.example.com/http:/x"
           \/ substring_of "https://" "https.example.com/http:/x")
      /\ (Dict.get fv "has_malformed_url" = inr 1%Z
          <-> substring_of "http:/" "https.example.com/http:/x"
              \/ substring_of "https:/" "https.example.com/http:/x")
      /\ (Dict.get fv "has_https" = inr 1%Z
          <-> exists t, "https.example.com/http:/x" = "https" ++ t)
  | inl _ => False
  end.
Proof.
  destruct (extract_features lenient_ip_address "https.example.com/http:/x")
    as [e | fv] eqn:E.
  - vm_compute in E. discriminate.
  - exact (protocol_flags_are_substring_tests lenient_ip_address
             "https.example.com/http:/x" fv E).
Defined.

Lemma tld_flag_example :
  match extract_features lenient_ip_address "http://phish.tk/secure" with
  | inr fv =>
      (Dict.get fv "has_suspicious_tld" = inr 1%Z
       <-> exists tld, In tld suspicious_tlds /\ suffix_of tld "phish.tk")
      /\ (Dict.get fv "has_suspicious_tld" = inr 1%Z ->
          exists dots, Dict.get fv "num_dots" = inr dots /\ (1 <= dots)%Z)
  | inl _ => False
  end.
Proof.
  destruct (extract_features lenient_ip_address "http://phish.tk/secure")
    as [e | fv] eqn:E.
  - vm_compute in E. discriminate.
  - apply (tld_flag_is_a_suffix_test lenient_ip_address
             "http://phish.tk/secure"
             (UrlParse.mkParse "http" "phish.tk" "/secure" "" "" "") fv);
      [vm_compute; reflexivity | exact E].
Defined.

Lemma cleaning_example :
  cleaned blank_padded_url = "http://a-b.example.tk/x"
  /\ match extract_features lenient_ip_address blank_padded_url with
     | inr fv =>
         exists fv',
           extract_features lenient_ip_address (cleaned blank_padded_url)
           = inr fv'
           /\ forall name, In name parsed_features ->
                           Dict.get fv' name = Dict.get fv name
     | inl _ => False
     end.
Proof.
  split; [reflexivity |].
  destruct (extract_features lenient_ip_address blank_padded_url)
    as [e | fv] eqn:E.
  - vm_compute in E. discriminate.
  - exact (parsed_features_ignore_cleaning lenient_ip_address
             blank_padded_url fv E).
Defined.

Lemma failed_training_example :
  fst (model_py lenient_ip_address sample_fit broken_world)
  = inl (ValueError "Invalid IPv6 URL")
  /\ snd (model_py lenient_ip_address sample_fit broken_world) = broken_world.
Proof.
  split; [vm_compute; reflexivity |].
  apply (proj1 (failed_training_writes_nothing lenient_ip_address sample_fit
                  broken_world (ValueError "Invalid IPv6 URL"))).
  vm_compute. reflexivity.
Defined.


Lemma checkpoint_round_trip_example :
  fst (model_checkpoint_py lenient_ip_address sample_fit padded_world) = inr tt
  /\ trace (snd (model_checkpoint_py lenient_ip_address sample_fit padded_world))
     = [Dump "phishing_model.pkl"]
  /\ artifacts (snd (model_checkpoint_py lenient_ip_address sample_fit
                       padded_world)) "phishing_model.pkl"
     = Some sample_model
  /\ (forall path, path <> "phishing_model.pkl" ->
        artifacts (snd (model_checkpoint_py lenient_ip_address sample_fit
                          padded_world)) path
        = artifacts padded_world path)
  /\ forall URL fv,
       extract_features lenient_ip_address URL = inr fv ->
       fst (predict_URL_checkpoint lenient_ip_address URL
              (snd (model_checkpoint_py lenient_ip_address sample_fit
                      padded_world)))
       = index0 (predict sample_model (Pandas.from_dicts [fv])).
Proof.
  eapply (checkpoint_training_then_prediction lenient_ip_address sample_fit
            padded_world padded_dataset).
  - reflexivity.
  - vm_compute. reflexivity.
  - vm_compute. reflexivity.
  - vm_compute. reflexivity.
  - reflexivity.
Defined.

Lemma training_rows_example :
  exists fvs,
    map_result (extract_features lenient_ip_address)
      ["http://example.com"; "https://bit.ly/abc123"] = inr fvs
    /\ Pandas.f_rows (Pandas.from_dicts fvs)
       = List.map (fun fv => List.map Some (Dict.values fv)) fvs
    /\ List.length (Pandas.f_rows (Pandas.from_dicts fvs)) = 2%nat
    /\ forall fv, In fv fvs ->
         Pandas.f_rows (Pandas.from_dicts [fv])
         = [List.map Some (Dict.values fv)].
Proof.
  eexists. split; [vm_compute; reflexivity |].
  eapply (training_rows_are_prediction_rows lenient_ip_address
            ["http://example.com"; "https://bit.ly/abc123"]).
  - discriminate.
  - vm_compute. reflexivity.
Defined.

Lemma no_artifact_example :
  fst (predict_URL lenient_ip_address "http://[" training_world)
  = inl (FileNotFoundError "phishing_model.pkl")
  /\ fst (predict_URL_checkpoint lenient_ip_address "http://[" training_world)
     = inl (FileNotFoundError "phishing_model.pkl").
Proof.
  apply (predict_URL_without_artifact lenient_ip_address "http://["
           training_world).
  reflexivity.
Defined.

Lemma largest_probability_example :
  exists m fv proba probas best,
    artifacts serving_world "phishing_model.pkl" = Some m
    /\ extract_features lenient_ip_address "http://example.com" = inr fv
    /\ predict_proba m (Pandas.from_dicts [fv]) = proba :: probas
    /\ In best proba
    /\ (300 # 4)%Q = (best * 100)%Q
    /\ forall x, In x proba -> (x * 100 <= 300 # 4)%Q.
Proof.
  apply (confidence_is_the_largest_probability lenient_ip_address
           "http://example.com" serving_world 1%Z (300 # 4)%Q).
  vm_compute. reflexivity.
Defined.

Lemma predict_URL_variants_example :
  fst (predict_URL_checkpoint lenient_ip_address "http://example.com"
         serving_world) = inr 1%Z
  /\ snd (predict_URL_checkpoint lenient_ip_address "http://example.com"
            serving_world)
     = snd (predict_URL lenient_ip_address "http://example.com" serving_world).
Proof.
  apply (predict_URL_variants_agree lenient_ip_address "http://example.com"
           serving_world 1%Z (300 # 4)%Q).
  vm_compute. reflexivity.
Defined.

Lemma analyze_example :
  fst (analyze lenient_ip_address "http://example.com" serving_world)
  = inr (false, (300 # 4)%Q)
  /\ analyze_request lenient_ip_address [("url", "http://example.com")]
       serving_world
     = (inl (KeyError "URL"), serving_world).
Proof.
  pose proof (analyze_verdict lenient_ip_address "http://example.com"
                serving_world) as (Hok & _ & _ & Hform).
  split.
  - apply (Hok 1%Z (300 # 4)%Q). vm_compute. reflexivity.
  - apply Hform. intros v [H | []]. discriminate.
Defined.

Lemma missing_url_column_example :
  model_py lenient_ip_address sample_fit padded_world
  = (inl (KeyError "URL"), padded_world).
Proof.
  apply (proj1 (missing_url_column_is_a_key_error lenient_ip_address
                  sample_fit padded_world padded_dataset eq_refl)).
  intros [H | [H | []]]; discriminate.
Defined.

Lemma clean_labels_example :
  Pandas.strip_columns sample_dataset = sample_dataset
  /\ forall name,
       Pandas.getitem (Pandas.strip_columns sample_dataset) name
       = Pandas.getitem sample_dataset name.
Proof.
  apply (proj2 (clean_labels_need_no_stripping sample_dataset)).
  repeat constructor.
Defined.
